(** * httpgd: the graphics-device bridge (src/Httpgd.cpp)

    A shallow embedding of the device callbacks and of the exported
    management functions of [Httpgd.cpp], followed by the properties the
    specification states about them.

    Conventions.
    - A C++ [int] is a [Z]; where the source computes on it, the 32-bit
      two's-complement wrap-around is written out ([wrap_int]).
    - A C++ [double] is a primitive binary64 [float].
    - An R error (raised by [Rcpp::stop] or by the graphics engine) is the
      outcome [Stop msg]; it leaves the function at once.
    - Code that is not in this translation unit (the font utilities, the
      [HttpgdDev] class, the R graphics engine) is an interface: a type
      class whose members carry the names used by the source. *)

From Stdlib Require Import ZArith List String Ascii Bool Lia PrimFloat.
From Stdlib Require FloatAxioms SpecFloat.
Import ListNotations.

Local Open Scope string_scope.
Local Open Scope Z_scope.

(** ** Machine integers *)

Definition INT_MIN : Z := - 2 ^ 31.
Definition INT_MAX : Z := 2 ^ 31 - 1.

Definition in_int (z : Z) : Prop := INT_MIN <= z <= INT_MAX.

(** Reduction of a mathematical integer to the value a 32-bit [int] holds. *)
Definition wrap_int (z : Z) : Z := (z + 2 ^ 31) mod 2 ^ 32 - 2 ^ 31.

Definition neg_int (a : Z) : Z := wrap_int (- a).
Definition add_int (a b : Z) : Z := wrap_int (a + b).

(** ** R values *)

(** The few shapes of [SEXP] this file builds or passes on. *)
Inductive SEXP : Type :=
| Rstr (s : string)
| Rint (z : Z).

(** [Rcpp::List]: values with names, in order. *)
Definition RList : Type := list (string * SEXP).

(** ** Graphics context *)

(** The members of [R_GE_gcontext] the callbacks read. *)
Record GEcontext : Type := {
  fontfamily : string;
  fontface : Z;
  ps : float;
  cex : float
}.

(** ** Draw calls (DrawData.h) *)

Record TextInfo : Type := {
  font_family : string;
  fontsize : float;
  bold : bool;
  italic : bool;
  txtwidth : float
}.

Inductive DrawCall : Type :=
| Line (gc : GEcontext) (x1 y1 x2 y2 : float)
| Polyline (gc : GEcontext) (n : Z) (vx vy : list float)
| Polygon (gc : GEcontext) (n : Z) (vx vy : list float)
| Path (gc : GEcontext) (vx vy : list float) (npoly : Z) (vnper : list Z)
       (winding : bool)
| Rect (gc : GEcontext) (x0 y0 x1 y1 : float)
| Circle (gc : GEcontext) (x y r : float)
| Text (gc : GEcontext) (x y : float) (str : string) (rot hadj : float)
       (info : TextInfo).

(** ** Start parameters and server configuration (HttpgdDev.h)

    Field order is the order of the brace initialisers in [httpgd_]. *)

Record HttpgdDevStartParams : Type := {
  bg : Z;
  width : float;
  height : float;
  pointsize : float;
  aliases : RList
}.

Record HttpgdServerConfig : Type := {
  host : string;
  port : Z;
  wwwlive : string;
  cors : bool;
  use_token : bool;
  token : string;
  record_history : bool
}.

(** ** Device descriptors *)

(** A heap address; [deviceSpecific] is a [void *]. *)
Definition addr : Type := nat.

(** The members of [DevDesc] that [httpgd_driver_new] computes from its
    arguments; the remaining ones are constants and callback pointers. *)
Record DevDesc : Type := {
  startfill : Z;
  startps : float;
  left : float;
  top : float;
  right : float;
  bottom : float;
  deviceSpecific : option addr
}.

Record GEDevDesc : Type := {
  dev : option DevDesc
}.

(** ** Interfaces of the code outside this file *)

(** What a call leaves in the three output cells of [glyph_metrics]. *)
Definition metrics : Type := (float * float * float)%type.

(** lib/svglite_utils.h.  A function with output pointers takes the value
    the cell holds before the call and returns the error code with the value
    the cell holds after it. *)
Class FontService : Type := {
  get_font_file : string -> Z -> RList -> string * Z;
  glyph_metrics :
    Z -> string -> Z -> float -> float -> metrics -> Z * metrics;
  string_width :
    string -> string -> Z -> float -> float -> Z -> float -> Z * float;
  fontname : string -> Z -> RList -> RList -> string;
  is_bold : Z -> bool;
  is_italic : Z -> bool
}.

(** The methods of [HttpgdDev] that this file calls. *)
Class DeviceModel (Dev : Type) : Type := {
  HttpgdDev_new : DevDesc -> HttpgdServerConfig -> HttpgdDevStartParams -> Dev;
  user_aliases : Dev -> RList;
  system_aliases : Dev -> RList;
  put : DrawCall -> Dev -> Dev;
  start_server : Dev -> Dev;
  get_server_config : Dev -> HttpgdServerConfig;
  server_await_port : Dev -> Z;
  store_get_page_count : Dev -> Z;
  store_get_upid : Dev -> Z;
  store_svg : Z -> float -> float -> Dev -> string;
  store_remove : Z -> Dev -> bool * Dev;
  store_clear : Dev -> bool * Dev
}.

(** What a heap cell reached through a [void *] holds: a [HttpgdDev], or the
    private data of another graphics driver. *)
Inductive object (Dev : Type) : Type :=
| HttpgdObj (d : Dev)
| ForeignObj.
Arguments HttpgdObj {Dev} d.
Arguments ForeignObj {Dev}.

(** The state the exported functions work on: the engine's device table
    (slot [i] is device number [i + 1]) and the heap of device objects. *)
Record World (Dev : Type) : Type := {
  R_Devices : list (option GEDevDesc);
  heap : list (object Dev)
}.
Arguments R_Devices {Dev} w.
Arguments heap {Dev} w.
Arguments Build_World {Dev} R_Devices heap.

(** The R session around the device: graphics engine, package files and
    the network.  A member of type [option string] is an engine check:
    [Some msg] when it raises the R error [msg]. *)
Class HostEngine : Type := {
  R_GE_version : Z;
  R_GE_checkVersionOrDie : Z -> option string;
  R_CheckDeviceAvailable : list (option GEDevDesc) -> option string;
  R_GE_str2col : string -> string + Z;
  GEcreateDevDesc : DevDesc -> GEDevDesc;
  GEaddDevice2 :
    GEDevDesc -> string -> list (option GEDevDesc) -> list (option GEDevDesc);
  GEinitDisplayList :
    GEDevDesc -> list (option GEDevDesc) -> list (option GEDevDesc);
  calloc_DevDesc : bool;
  system_file : string -> string -> string -> string;
  ifstream : string -> option string;
  check_server_started : string -> Z -> bool
}.

(** ** Outcomes of the exported functions *)

Inductive outcome (Dev A : Type) : Type :=
| Ret (a : A) (w : World Dev)
| Stop (msg : string) (w : World Dev)
| Undefined.
Arguments Ret {Dev A} a w.
Arguments Stop {Dev A} msg w.
Arguments Undefined {Dev A}.

Definition M (Dev A : Type) : Type := World Dev -> outcome Dev A.

Definition ret {Dev A : Type} (a : A) : M Dev A := fun w => Ret a w.

Definition stop {Dev A : Type} (msg : string) : M Dev A := fun w => Stop msg w.

Definition bind {Dev A B : Type} (m : M Dev A) (f : A -> M Dev B) : M Dev B :=
  fun w =>
    match m w with
    | Ret a w' => f a w'
    | Stop msg w' => Stop msg w'
    | Undefined => Undefined
    end.

Notation "x <- m ;; k" := (bind m (fun x => k))
  (at level 61, m at next level, right associativity).
Notation "m ;;; k" := (bind m (fun _ => k))
  (at level 61, right associativity).

(** An engine check, run for its error. *)
Definition engine_check {Dev : Type} (c : option string) : M Dev unit :=
  match c with
  | Some msg => stop msg
  | None => ret tt
  end.

(** [std::vector<T> v(p, p + n)]: the first [n] cells of the buffer at [p];
    no result when the range is not inside the buffer. *)
Definition copy_range {A : Type} (buf : list A) (n : Z) : option (list A) :=
  if (0 <=? n) && (n <=? Z.of_nat (List.length buf))
  then Some (firstn (Z.to_nat n) buf)
  else None.

(** Replacement of the heap cell at [p]. *)
Fixpoint store_at {A : Type} (p : nat) (a : A) (l : list A) : list A :=
  match l, p with
  | [], _ => []
  | _ :: l', O => a :: l'
  | b :: l', S p' => b :: store_at p' a l'
  end.

(** ** The device callbacks and the exported functions *)

Section Httpgd.

Context {Dev : Type} {fonts : FontService} {model : DeviceModel Dev}
        {engine : HostEngine}.

(** returns system path to {package}/inst/www/{filename} *)
Definition get_wwwpath (filename : string) : string :=
  system_file "www" filename "httpgd".

(** An [ifstream] that failed to open hands nothing to the buffer. *)
Definition read_txt (filepath : string) : string :=
  match ifstream (get_wwwpath "index.html") with
  | Some text => text
  | None => ""
  end.

Definition getDev (dd : DevDesc) : option addr := deviceSpecific dd.

(** *** Font metrics *)

(** The glyph lookup as [httpgd_metric_info] issues it for the (already
    non-negative) code [c]. *)
Definition glyph_lookup (c : Z) (gc : GEcontext) (cells : metrics) (d : Dev)
  : Z * metrics :=
  let font := get_font_file (fontfamily gc) (fontface gc) (user_aliases d) in
  glyph_metrics c (fst font) (snd font) (PrimFloat.mul (ps gc) (cex gc))
                1e4%float cells.

(** R Callback: Get singe char font metrics.  [cells] is what [*ascent],
    [*descent] and [*width] hold on entry; the result is what they hold on
    return. *)
Definition httpgd_metric_info (c : Z) (gc : GEcontext) (cells : metrics)
           (d : Dev) : metrics :=
  let c := if c <? 0 then neg_int c else c in
  let '(error, (ascent, descent, width)) := glyph_lookup c gc cells d in
  let '(ascent, descent, width) :=
    if negb (error =? 0)
    then (0%float, 0%float, 0%float)
    else (ascent, descent, width) in
  let mod_ := PrimFloat.div 72%float 1e4%float in
  (PrimFloat.mul ascent mod_, PrimFloat.mul descent mod_,
   PrimFloat.mul width mod_).

(** The width lookup as [httpgd_strwidth] issues it; [width] starts at
    [0.0]. *)
Definition width_lookup (str : string) (gc : GEcontext) (d : Dev)
  : Z * float :=
  let font := get_font_file (fontfamily gc) (fontface gc) (user_aliases d) in
  string_width str (fst font) (snd font) (PrimFloat.mul (ps gc) (cex gc))
               1e4%float 1 0%float.

(** R Callback: Get String width. *)
Definition httpgd_strwidth (str : string) (gc : GEcontext) (d : Dev)
  : float :=
  let '(error, width) := width_lookup str gc d in
  let width := if negb (error =? 0) then 0%float else width in
  PrimFloat.div (PrimFloat.mul width 72%float) 1e4%float.

(** *** Draw objects

    A callback returns the device after the call; [None] when it reads
    outside one of its input buffers. *)

Definition httpgd_line (x1 y1 x2 y2 : float) (gc : GEcontext) (d : Dev)
  : Dev :=
  put (Line gc x1 y1 x2 y2) d.

Definition httpgd_polyline (n : Z) (x y : list float) (gc : GEcontext)
           (d : Dev) : option Dev :=
  match copy_range x n, copy_range y n with
  | Some vx, Some vy => Some (put (Polyline gc n vx vy) d)
  | _, _ => None
  end.

Definition httpgd_polygon (n : Z) (x y : list float) (gc : GEcontext)
           (d : Dev) : option Dev :=
  match copy_range x n, copy_range y n with
  | Some vx, Some vy => Some (put (Polygon gc n vx vy) d)
  | _, _ => None
  end.

(** The loop [for (i = 0; i < npoly; i++) npoints += vnper[i]] over the
    [npoly] entries of [vnper]. *)
Fixpoint path_npoints (vnper : list Z) (npoints : Z) : Z :=
  match vnper with
  | [] => npoints
  | n :: rest => path_npoints rest (add_int npoints n)
  end.

(** R Callback: Draw path. *)
Definition httpgd_path (x y : list float) (npoly : Z) (nper : list Z)
           (winding : bool) (gc : GEcontext) (d : Dev) : option Dev :=
  match copy_range nper npoly with
  | None => None
  | Some vnper =>
      let npoints := path_npoints vnper 0 in
      match copy_range x npoints, copy_range y npoints with
      | Some vx, Some vy => Some (put (Path gc vx vy npoly vnper winding) d)
      | _, _ => None
      end
  end.

Definition httpgd_rect (x0 y0 x1 y1 : float) (gc : GEcontext) (d : Dev)
  : Dev :=
  put (Rect gc x0 y0 x1 y1) d.

Definition httpgd_circle (x y r : float) (gc : GEcontext) (d : Dev) : Dev :=
  put (Circle gc x y r) d.

(** R Callback: Draw text. *)
Definition httpgd_text (x y : float) (str : string) (rot hadj : float)
           (gc : GEcontext) (d : Dev) : Dev :=
  put (Text gc x y str rot hadj
            {| font_family :=
                 fontname (fontfamily gc) (fontface gc)
                          (system_aliases d) (user_aliases d);
               fontsize := PrimFloat.mul (cex gc) (ps gc);
               bold := is_bold (fontface gc);
               italic := is_italic (fontface gc);
               txtwidth := httpgd_strwidth str gc d |})
      d.

(** *** Heap access *)

(** [static_cast<HttpgdDev *>(p)] followed by a method call: defined when
    [p] points to a [HttpgdDev]. *)
Definition load (p : option addr) : M Dev Dev :=
  fun w =>
    match p with
    | None => Undefined
    | Some a =>
        match nth_error (heap w) a with
        | Some (HttpgdObj d) => Ret d w
        | _ => Undefined
        end
    end.

Definition store (p : option addr) (d : Dev) : M Dev unit :=
  fun w =>
    match p with
    | None => Undefined
    | Some a =>
        Ret tt {| R_Devices := R_Devices w;
                  heap := store_at a (HttpgdObj d) (heap w) |}
    end.

(** [new HttpgdDev(...)]: a fresh cell at the end of the heap. *)
Definition new_HttpgdDev (d : Dev) : M Dev addr :=
  fun w =>
    Ret (List.length (heap w))
        {| R_Devices := R_Devices w; heap := heap w ++ [HttpgdObj d] |}.

(** A graphics-engine call that works on the device table. *)
Definition engine_call
           (f : list (option GEDevDesc) -> list (option GEDevDesc))
  : M Dev unit :=
  fun w => Ret tt {| R_Devices := f (R_Devices w); heap := heap w |}.

(** *** Device start *)

(** The descriptor as [httpgd_driver_new] fills it in before the device
    object exists. *)
Definition driver_fields (t_params : HttpgdDevStartParams) : DevDesc :=
  {| startfill := bg t_params;
     startps := pointsize t_params;
     left := 0%float;
     top := 0%float;
     right := width t_params;
     bottom := height t_params;
     deviceSpecific := None |}.

(** [dd->deviceSpecific = p]. *)
Definition set_deviceSpecific (p : addr) (dd : DevDesc) : DevDesc :=
  {| startfill := startfill dd;
     startps := startps dd;
     left := left dd;
     top := top dd;
     right := right dd;
     bottom := bottom dd;
     deviceSpecific := Some p |}.

(** R graphics device initialization procedure; no descriptor when
    [calloc] returns the null pointer. *)
Definition httpgd_driver_new (t_params : HttpgdDevStartParams)
           (t_config : HttpgdServerConfig) : M Dev (option DevDesc) :=
  if negb calloc_DevDesc then ret None
  else
    let dd := driver_fields t_params in
    p <- new_HttpgdDev (HttpgdDev_new dd t_config t_params) ;;
    ret (Some (set_deviceSpecific p dd)).

(** The block after the two engine checks runs with R's interrupts
    suspended; the interrupt flag is not part of the session modelled
    here. *)
Definition makehttpgdDevice (t_params : HttpgdDevStartParams)
           (t_config : HttpgdServerConfig) : M Dev unit :=
  engine_check (R_GE_checkVersionOrDie R_GE_version) ;;;
  (fun w => engine_check (R_CheckDeviceAvailable (R_Devices w)) w) ;;;
  if check_server_started (host t_config) (port t_config)
  then stop "Failed to start httpgd. Server already running at this address!"
  else
    dev <- httpgd_driver_new t_params t_config ;;
    match dev with
    | None => stop "Failed to start httpgd."
    | Some dev =>
        let dd := GEcreateDevDesc dev in
        engine_call (GEaddDevice2 dd "httpgd") ;;;
        engine_call (GEinitDisplayList dd) ;;;
        d <- load (getDev dev) ;;
        store (getDev dev) (start_server d)
    end.

(** The exported start function.  The colour comes back as an unsigned
    32-bit value and is stored in an [int]. *)
Definition httpgd_ (host : string) (port : Z) (bg : string)
           (width height pointsize : float) (aliases : RList)
           (recording cors : bool) (token : string) : M Dev bool :=
  let use_token := negb (Nat.eqb (String.length token) 0) in
  match R_GE_str2col bg with
  | inl msg => stop msg
  | inr col =>
      let ibg := wrap_int col in
      let livehtml := read_txt (get_wwwpath "index.html") in
      makehttpgdDevice
        {| bg := ibg; width := width; height := height;
           pointsize := pointsize; aliases := aliases |}
        {| host := host; port := port; wwwlive := livehtml; cors := cors;
           use_token := use_token; token := token;
           record_history := recording |} ;;;
      ret true
  end.

(** *** In-process management *)

(** [GEgetDevice(i)]: slot [i] of the device table. *)
Definition GEgetDevice (i : Z) (w : World Dev) : option GEDevDesc :=
  if i <? 0 then None
  else match nth_error (R_Devices w) (Z.to_nat i) with
       | Some slot => slot
       | None => None
       end.

Definition validate_httpgddev (devnum : Z) : M Dev addr :=
  if (devnum <? 1) || (devnum >? 64)
  then stop "invalid graphical device number"
  else
    fun w =>
      match GEgetDevice (devnum - 1) w with
      | None => Stop "invalid device" w
      | Some gdd =>
          match dev gdd with
          | None => Stop "invalid device" w
          | Some dd =>
              match deviceSpecific dd with
              | None => Stop "invalid device" w
              | Some p => Ret p w
              end
          end
      end.

Definition httpgd_state_ (devnum : Z) : M Dev RList :=
  p <- validate_httpgddev devnum ;;
  d <- load (Some p) ;;
  let svr_config := get_server_config d in
  ret [("host", Rstr (host svr_config));
       ("port", Rint (server_await_port d));
       ("token", Rstr (token svr_config));
       ("hsize", Rint (store_get_page_count d));
       ("upid", Rint (store_get_upid d))].

(** Modelled from the spec: [HttpgdDev::random_token] is a member of the
    absent [HttpgdDev] class; the specification has it "generate a random
    opaque token of requested length".  The token takes its [len]
    characters, in order, from the random source [rnd]. *)
Definition random_token (rnd : nat -> ascii) (len : Z) : string :=
  string_of_list_ascii (map rnd (seq 0 (Z.to_nat len))).

Definition httpgd_random_token_ (rnd : nat -> ascii) (len : Z)
  : M Dev string :=
  if len <? 0 then stop "Length needs to be 0 or higher."
  else ret (random_token rnd len).

Definition httpgd_svg_ (devnum page : Z) (width height : float)
  : M Dev string :=
  p <- validate_httpgddev devnum ;;
  d <- load (Some p) ;;
  ret (store_svg page width height d).

Definition httpgd_remove_ (devnum page : Z) : M Dev bool :=
  p <- validate_httpgddev devnum ;;
  d <- load (Some p) ;;
  let '(removed, d') := store_remove page d in
  store (Some p) d' ;;;
  ret removed.

Definition httpgd_clear_ (devnum : Z) : M Dev bool :=
  p <- validate_httpgddev devnum ;;
  d <- load (Some p) ;;
  let '(cleared, d') := store_clear d in
  store (Some p) d' ;;;
  ret cleared.

End Httpgd.

(** ** The remaining callbacks *)

Definition mul_int (a b : Z) : Z := wrap_int (a * b).

(** [dc::Raster] (DrawData.h): the pixels are [unsigned int]s. *)
Record RasterCall : Type := {
  ras_gc : GEcontext;
  ras_raster : list Z;
  ras_w : Z;
  ras_h : Z;
  ras_x : float;
  ras_y : float;
  ras_width : float;
  ras_height : float;
  ras_rot : float;
  ras_interpolate : bool
}.

(** The page methods of [HttpgdDev] that the remaining callbacks call;
    [put_raster] is [put] at a [dc::Raster], and [page_size] returns what it
    writes to its two output cells. *)
Class PageModel (Dev : Type) : Type := {
  clip_page : float -> float -> float -> float -> Dev -> Dev;
  new_page : float -> float -> Z -> Dev -> Dev;
  page_size : Dev -> float * float;
  mode : Z -> Dev -> Dev;
  put_raster : RasterCall -> Dev -> Dev
}.

Section Pages.

Context {Dev : Type} {pages : PageModel Dev}.

(** R Callback: Clip draw area. *)
Definition httpgd_clip (x0 x1 y0 y1 : float) (d : Dev) : Dev :=
  clip_page x0 x1 y0 y1 d.

(** R Callback: Start new page. *)
Definition httpgd_new_page (gc : GEcontext) (dd : DevDesc) (d : Dev) : Dev :=
  new_page (right dd) (bottom dd) (startfill dd) d.

(** R Callback: Get size of drawing.  The result is what [*left], [*right],
    [*bottom] and [*top] hold on return. *)
Definition httpgd_size (d : Dev) : float * float * float * float :=
  let '(w, h) := page_size d in
  (0%float, w, h, 0%float).

(** R Callback: Draw raster graphic. *)
Definition httpgd_raster (raster : list Z) (w h : Z)
           (x y width height rot : float) (interpolate : bool)
           (gc : GEcontext) (d : Dev) : option Dev :=
  match copy_range raster (mul_int w h) with
  | None => None
  | Some raster_ =>
      Some (put_raster
              {| ras_gc := gc; ras_raster := raster_; ras_w := w; ras_h := h;
                 ras_x := x; ras_y := y; ras_width := width;
                 ras_height := height; ras_rot := rot;
                 ras_interpolate := interpolate |} d)
  end.

(** R Callback: start draw = 1, stop draw = 0 *)
Definition httpgd_mode (mode_ : Z) (d : Dev) : Dev := mode mode_ d.

End Pages.

(** ** A sample session

    A small device, font service and host engine on which the functions
    above run; the examples at the end of the file evaluate them here. *)

Module Sample.

Record SimpleDev : Type := {
  sd_config : HttpgdServerConfig;
  sd_params : HttpgdDevStartParams;
  sd_calls : list DrawCall;
  sd_pages : Z;
  sd_upid : Z;
  sd_running : bool
}.

Definition set_store (calls : list DrawCall) (pages upid : Z)
           (d : SimpleDev) : SimpleDev :=
  {| sd_config := sd_config d; sd_params := sd_params d;
     sd_calls := calls; sd_pages := pages; sd_upid := upid;
     sd_running := sd_running d |}.

Definition simple_dev : DeviceModel SimpleDev := {|
  HttpgdDev_new := fun _ config params =>
    {| sd_config := config; sd_params := params; sd_calls := [];
       sd_pages := 0; sd_upid := 0; sd_running := false |};
  user_aliases := fun d => aliases (sd_params d);
  system_aliases := fun _ => [];
  put := fun c d =>
    set_store (sd_calls d ++ [c]) (sd_pages d) (sd_upid d + 1) d;
  start_server := fun d =>
    {| sd_config := sd_config d; sd_params := sd_params d;
       sd_calls := sd_calls d; sd_pages := sd_pages d;
       sd_upid := sd_upid d; sd_running := true |};
  get_server_config := sd_config;
  server_await_port := fun d => port (sd_config d);
  store_get_page_count := sd_pages;
  store_get_upid := sd_upid;
  store_svg := fun _ _ _ _ => "<svg></svg>";
  store_remove := fun page d =>
    if (0 <=? page) && (page <? sd_pages d)
    then (true, set_store (sd_calls d) (sd_pages d - 1) (sd_upid d + 1) d)
    else (false, d);
  store_clear := fun d => (true, set_store [] 0 (sd_upid d + 1) d)
|}.

(** A font service where every lookup fails and leaves the cells alone. *)
Definition no_fonts : FontService := {|
  get_font_file := fun _ _ _ => ("", 0);
  glyph_metrics := fun _ _ _ _ _ cells => (1, cells);
  string_width := fun _ _ _ _ _ _ w => (1, w);
  fontname := fun family _ _ _ => family;
  is_bold := fun face => (face =? 2) || (face =? 4);
  is_italic := fun face => (face =? 3) || (face =? 4)
|}.

(** A font service that knows one face: the letter A is wider. *)
Definition one_font : FontService := {|
  get_font_file := fun _ _ _ => ("sans.ttf", 0);
  glyph_metrics := fun c _ _ _ _ _ =>
    (0, (7000%float, 2000%float,
         if c =? 65 then 6500%float else 5000%float));
  string_width := fun str _ _ _ _ _ _ =>
    (0, if Nat.eqb (String.length str) 0 then 0%float else 5000%float);
  fontname := fun family _ _ _ => family;
  is_bold := fun face => (face =? 2) || (face =? 4);
  is_italic := fun face => (face =? 3) || (face =? 4)
|}.

Definition occupied (slot : option GEDevDesc) : bool :=
  match slot with
  | Some _ => true
  | None => false
  end.

(** The first free slot after the null device takes the new device. *)
Fixpoint add_device (gdd : GEDevDesc) (table : list (option GEDevDesc))
  : list (option GEDevDesc) :=
  match table with
  | [] => [Some gdd]
  | None :: rest => Some gdd :: rest
  | Some g :: rest => Some g :: add_device gdd rest
  end.

Definition index_html : string := "/lib/httpgd/www/index.html".

(** A host engine with a server of another session on port 8080. *)
Definition host_engine : HostEngine := {|
  R_GE_version := 13;
  R_GE_checkVersionOrDie := fun v =>
    if v =? 13 then None
    else Some "Graphics API version mismatch";
  R_CheckDeviceAvailable := fun table =>
    if (63 <=? Z.of_nat (List.length (filter occupied table)))
    then Some "too many open devices"
    else None;
  R_GE_str2col := fun s =>
    if String.eqb s "white" then inr 4294967295
    else if String.eqb s "black" then inr 4278190080
    else inl "invalid color name";
  GEcreateDevDesc := fun dd => {| dev := Some dd |};
  GEaddDevice2 := fun gdd _ table => add_device gdd table;
  GEinitDisplayList := fun _ table => table;
  calloc_DevDesc := true;
  system_file := fun dir file pkg =>
    "/lib/" ++ pkg ++ "/" ++ dir ++ "/" ++ file;
  ifstream := fun path =>
    if String.eqb path index_html then Some "<html></html>" else None;
  check_server_started := fun _ port => port =? 8080
|}.

Definition gc0 : GEcontext :=
  {| fontfamily := "sans"; fontface := 2; ps := 12%float; cex := 1%float |}.

Definition params0 : HttpgdDevStartParams :=
  {| bg := -1; width := 720%float; height := 576%float;
     pointsize := 12%float; aliases := [] |}.

Definition config0 : HttpgdServerConfig :=
  {| host := "127.0.0.1"; port := 8080; wwwlive := "<html></html>";
     cors := false; use_token := true; token := "abc123";
     record_history := true |}.

Definition dev0 : SimpleDev :=
  {| sd_config := config0; sd_params := params0; sd_calls := [];
     sd_pages := 3; sd_upid := 17; sd_running := true |}.

Definition descriptor (p : option addr) : DevDesc :=
  {| startfill := -1; startps := 12%float; left := 0%float;
     top := 0%float; right := 720%float; bottom := 576%float;
     deviceSpecific := p |}.

(** Device 1 is the null device, device 2 a running httpgd device,
    device 3 a device of another driver; slot 3 is free and device 5 has
    lost its private data. *)
Definition w0 : World SimpleDev :=
  {| R_Devices := [Some {| dev := None |};
                   Some {| dev := Some (descriptor (Some 0%nat)) |};
                   Some {| dev := Some (descriptor (Some 1%nat)) |};
                   None;
                   Some {| dev := Some (descriptor None) |}];
     heap := [HttpgdObj dev0; ForeignObj] |}.

(** The session before any device is open. *)
Definition w_empty : World SimpleDev :=
  {| R_Devices := [Some {| dev := None |}]; heap := [] |}.

(** The session after [httpgd_] has started a device on port 8288 with
    the token abc123. *)
Definition w_started : World SimpleDev :=
  match
    @httpgd_ SimpleDev simple_dev host_engine "127.0.0.1" 8288 "white"
             720%float 576%float 12%float [] true false "abc123" w_empty
  with
  | Ret _ w => w
  | _ => w_empty
  end.

(** Pages for the small device: a new page starts an empty command list. *)
Definition simple_pages : PageModel SimpleDev := {|
  clip_page := fun _ _ _ _ d => d;
  new_page := fun _ _ _ d => set_store [] (sd_pages d + 1) (sd_upid d + 1) d;
  page_size := fun d => (width (sd_params d), height (sd_params d));
  mode := fun _ d => d;
  put_raster := fun _ d =>
    set_store (sd_calls d) (sd_pages d) (sd_upid d + 1) d
|}.

(** The host engine out of memory: [calloc] returns the null pointer; and
    with no server of another session. *)
Definition host_engine_no_memory : HostEngine := {|
  R_GE_version := R_GE_version (HostEngine := host_engine);
  R_GE_checkVersionOrDie := R_GE_checkVersionOrDie (HostEngine := host_engine);
  R_CheckDeviceAvailable := R_CheckDeviceAvailable (HostEngine := host_engine);
  R_GE_str2col := R_GE_str2col (HostEngine := host_engine);
  GEcreateDevDesc := GEcreateDevDesc (HostEngine := host_engine);
  GEaddDevice2 := GEaddDevice2 (HostEngine := host_engine);
  GEinitDisplayList := GEinitDisplayList (HostEngine := host_engine);
  calloc_DevDesc := false;
  system_file := system_file (HostEngine := host_engine);
  ifstream := ifstream (HostEngine := host_engine);
  check_server_started := fun _ _ => false
|}.

(** The configuration of a start on the free port 8288. *)
Definition config1 : HttpgdServerConfig :=
  {| host := "127.0.0.1"; port := 8288; wwwlive := "<html></html>";
     cors := false; use_token := true; token := "abc123";
     record_history := true |}.

(** The device that start leaves on the heap. *)
Definition dev_started : SimpleDev :=
  {| sd_config := config1; sd_params := params0; sd_calls := [];
     sd_pages := 0; sd_upid := 0; sd_running := true |}.

(** A second httpgd device in the session [w0], as device 4. *)
Definition dev1 : SimpleDev :=
  {| sd_config := config0; sd_params := params0; sd_calls := [];
     sd_pages := 1; sd_upid := 4; sd_running := true |}.

Definition w1 : World SimpleDev :=
  {| R_Devices := [Some {| dev := None |};
                   Some {| dev := Some (descriptor (Some 0%nat)) |};
                   Some {| dev := Some (descriptor (Some 1%nat)) |};
                   Some {| dev := Some (descriptor (Some 2%nat)) |}];
     heap := [HttpgdObj dev0; ForeignObj; HttpgdObj dev1] |}.

(** The session [w0] with its device table filled up: 63 of the 64 slots
    are taken, the most the engine allows. *)
Definition w_full : World SimpleDev :=
  {| R_Devices :=
       R_Devices w0
       ++ repeat (Some {| dev := Some (descriptor None) |}) 59;
     heap := heap w0 |}.

Definition letters (i : nat) : ascii :=
  match Nat.modulo i 3 with
  | 0%nat => "a"%char
  | 1%nat => "7"%char
  | _ => "Q"%char
  end.

End Sample.

(** ** Vocabulary of the statements *)

(** The number of points of a path: the sum of its per-polygon counts. *)
Definition total (counts : list Z) : Z := fold_right Z.add 0 counts.

(** The counts [nper[0]] to [nper[npoly - 1]]. *)
Definition counts_read (npoly : Z) (nper : list Z) : list Z :=
  firstn (Z.to_nat npoly) nper.

(** The first [n] coordinates of a buffer, in the buffer's order. *)
Definition points_read (n : Z) (buf : list float) : list float :=
  firstn (Z.to_nat n) buf.

Section Vocabulary.

Context {Dev : Type} {model : DeviceModel Dev}.

(** The [deviceSpecific] pointer reached from device number [devnum]; none
    when the slot, its descriptor or the pointer itself is null. *)
Definition device_data (devnum : Z) (w : World Dev) : option addr :=
  match GEgetDevice (devnum - 1) w with
  | Some gdd =>
      match dev gdd with
      | Some dd => deviceSpecific dd
      | None => None
      end
  | None => None
  end.

(** Device number [devnum] is the live httpgd device [d]. *)
Definition live_httpgd (devnum : Z) (w : World Dev) (d : Dev) : Prop :=
  1 <= devnum <= 64 /\
  exists p, device_data devnum w = Some p /\
            nth_error (heap w) p = Some (HttpgdObj d).

Definition reports_failure {A : Type} (o : outcome Dev A) : Prop :=
  exists msg w', o = Stop msg w'.

(** Every management function reports a failure for a device number that
    is out of range or is not a live httpgd device. *)
Definition lookup_errors_reported (devnum : Z) (w : World Dev) : Prop :=
  (devnum < 1 \/ 64 < devnum \/ ~ (exists d, live_httpgd devnum w d)) ->
  reports_failure (httpgd_state_ devnum w) /\
  (forall page width height,
      reports_failure (httpgd_svg_ devnum page width height w)) /\
  (forall page, reports_failure (httpgd_remove_ devnum page w)) /\
  reports_failure (httpgd_clear_ devnum w).

(** The state query answers with a list whose names are [names]. *)
Definition state_fields_named (names : list string) (devnum : Z)
           (w : World Dev) : Prop :=
  exists l w', httpgd_state_ devnum w = Ret l w' /\ map fst l = names.

End Vocabulary.

(** A start at an address where a server already runs fails with the
    "already running" error and leaves the session as it was. *)
Definition collision_reported {Dev : Type} {model : DeviceModel Dev}
           {engine : HostEngine} (t_params : HttpgdDevStartParams)
           (t_config : HttpgdServerConfig) (w : World Dev) : Prop :=
  check_server_started (host t_config) (port t_config) = true ->
  makehttpgdDevice t_params t_config w
  = Stop "Failed to start httpgd. Server already running at this address!" w.

(** The session after the device object at [p] has become [d]: the device
    table as it was, the heap with that one cell replaced. *)
Definition with_device {Dev : Type} (p : addr) (d : Dev) (w : World Dev)
  : World Dev :=
  {| R_Devices := R_Devices w; heap := store_at p (HttpgdObj d) (heap w) |}.

(** The answer of the state query for the device object [d]. *)
Definition state_of {Dev : Type} {model : DeviceModel Dev} (d : Dev) : RList :=
  [("host", Rstr (host (get_server_config d)));
   ("port", Rint (server_await_port d));
   ("token", Rstr (token (get_server_config d)));
   ("hsize", Rint (store_get_page_count d));
   ("upid", Rint (store_get_upid d))].

(** ** Machine integers: facts *)

Lemma wrap_int_small (z : Z) : in_int z -> wrap_int z = z.
Proof.
  unfold in_int, INT_MIN, INT_MAX, wrap_int. intros Hz.
  rewrite Z.mod_small; lia.
Qed.

Lemma neg_int_opp (c : Z) : INT_MIN < c <= INT_MAX -> neg_int c = - c.
Proof.
  intros Hc. unfold neg_int. apply wrap_int_small.
  unfold in_int, INT_MIN, INT_MAX in *. lia.
Qed.

Lemma neg_int_min : neg_int INT_MIN = INT_MIN.
Proof. reflexivity. Qed.

Lemma add_int_small (a b : Z) : in_int (a + b) -> add_int a b = a + b.
Proof. apply wrap_int_small. Qed.

(** The code the glyph lookup receives is the absolute value of the code
    the callback was given. *)
Lemma lookup_code_abs (c : Z) :
  INT_MIN < c <= INT_MAX -> (if c <? 0 then neg_int c else c) = Z.abs c.
Proof.
  intros Hc. destruct (Z.ltb_spec c 0).
  - rewrite neg_int_opp by exact Hc. lia.
  - lia.
Qed.

Lemma lookup_code_neg (c : Z) :
  in_int c ->
  (if neg_int c <? 0 then neg_int (neg_int c) else neg_int c)
  = (if c <? 0 then neg_int c else c).
Proof.
  intros Hc.
  assert (Hcases : c = INT_MIN \/ INT_MIN < c <= INT_MAX)
    by (unfold in_int in Hc; lia).
  destruct Hcases as [-> | Hr]; [reflexivity |].
  rewrite (neg_int_opp c Hr).
  assert (Hr' : INT_MIN < - c <= INT_MAX)
    by (unfold INT_MIN, INT_MAX in *; lia).
  rewrite (neg_int_opp (- c) Hr').
  destruct (Z.ltb_spec (- c) 0), (Z.ltb_spec c 0); lia.
Qed.

(** ** Buffers: facts *)

Lemma copy_range_some {A : Type} (buf : list A) (n : Z) :
  0 <= n <= Z.of_nat (List.length buf) ->
  copy_range buf n = Some (firstn (Z.to_nat n) buf).
Proof.
  intros [Hlo Hhi]. unfold copy_range.
  apply Z.leb_le in Hlo. apply Z.leb_le in Hhi.
  now rewrite Hlo, Hhi.
Qed.

Lemma total_nonneg (counts : list Z) :
  Forall (fun n => 0 <= n) counts -> 0 <= total counts.
Proof.
  induction 1 as [| n rest Hn _ IH]; simpl; lia.
Qed.

(** Without overflow the loop adds the counts to its accumulator. *)
Lemma path_npoints_total (vnper : list Z) :
  Forall (fun n => 0 <= n) vnper ->
  forall npoints,
    0 <= npoints ->
    npoints + total vnper <= INT_MAX ->
    path_npoints vnper npoints = npoints + total vnper.
Proof.
  induction 1 as [| n rest Hn Hrest IH]; intros npoints Hacc Hfit; simpl.
  - lia.
  - pose proof (total_nonneg rest Hrest) as Hpos.
    simpl in Hfit.
    rewrite add_int_small
      by (unfold in_int, INT_MIN, INT_MAX in *; lia).
    rewrite IH by lia. lia.
Qed.

(** ** The drawing callbacks *)

Section Callbacks.

Context {Dev : Type} {fonts : FontService} {model : DeviceModel Dev}.

Lemma metric_info_failure (c : Z) (gc : GEcontext) (cells : metrics)
      (d : Dev) :
  fst (glyph_lookup (if c <? 0 then neg_int c else c) gc cells d) <> 0 ->
  httpgd_metric_info c gc cells d = (0%float, 0%float, 0%float).
Proof.
  intros Herr. unfold httpgd_metric_info.
  destruct (glyph_lookup _ gc cells d) as [error [[ascent descent] w]].
  simpl in Herr. apply Z.eqb_neq in Herr. rewrite Herr. reflexivity.
Qed.

Lemma strwidth_failure (str : string) (gc : GEcontext) (d : Dev) :
  fst (width_lookup str gc d) <> 0 -> httpgd_strwidth str gc d = 0%float.
Proof.
  intros Herr. unfold httpgd_strwidth.
  destruct (width_lookup str gc d) as [error w].
  simpl in Herr. apply Z.eqb_neq in Herr. rewrite Herr. reflexivity.
Qed.

(** What [httpgd_strwidth] makes of the answer of the font service, and
    with it the [Text] command that [httpgd_text] puts. *)
Lemma strwidth_service (str : string) (gc : GEcontext) (d : Dev)
      (error : Z) (measured : float) :
  string_width
    str
    (fst (get_font_file (fontfamily gc) (fontface gc) (user_aliases d)))
    (snd (get_font_file (fontfamily gc) (fontface gc) (user_aliases d)))
    (PrimFloat.mul (ps gc) (cex gc)) 1e4%float 1 0%float
  = (error, measured) ->
  forall x y rot hadj,
    httpgd_text x y str rot hadj gc d
    = put (Text gc x y str rot hadj
                {| font_family :=
                     fontname (fontfamily gc) (fontface gc)
                              (system_aliases d) (user_aliases d);
                   fontsize := PrimFloat.mul (cex gc) (ps gc);
                   bold := is_bold (fontface gc);
                   italic := is_italic (fontface gc);
                   txtwidth :=
                     PrimFloat.div
                       (PrimFloat.mul
                          (if error =? 0 then measured else 0%float)
                          72%float)
                       1e4%float |}) d.
Proof.
  intros Hcall x y rot hadj.
  unfold httpgd_text, httpgd_strwidth, width_lookup. cbv zeta.
  rewrite Hcall. simpl. now destruct (error =? 0).
Qed.

(** C1.  When the font service reports an error (a nonzero return), the
    metrics degrade to zero: [httpgd_metric_info] leaves 0 in ascent,
    descent and width, and [httpgd_strwidth] returns 0. *)
Theorem metrics_failure_gives_zero :
  (forall c gc cells d,
      fst (glyph_lookup (if c <? 0 then neg_int c else c) gc cells d) <> 0 ->
      httpgd_metric_info c gc cells d = (0%float, 0%float, 0%float)) /\
  (forall str gc d,
      fst (width_lookup str gc d) <> 0 ->
      httpgd_strwidth str gc d = 0%float).
Proof.
  split.
  - exact metric_info_failure.
  - exact strwidth_failure.
Qed.

(** C2.  A text draw call puts one [Text] command whose info holds the
    resolved font name, the size [cex * ps], the bold and italic flags and
    the width measured by [httpgd_strwidth]; when the measurement fails the
    command is put all the same, with width 0.  In terms of the font
    service: the recorded width is the width [string_width] returns, scaled
    by 72 / 1e4, when its error code is 0, and 0 when it is not. *)
Theorem text_records_info (x y : float) (str : string) (rot hadj : float)
        (gc : GEcontext) (d : Dev) :
  httpgd_text x y str rot hadj gc d
  = put (Text gc x y str rot hadj
              {| font_family :=
                   fontname (fontfamily gc) (fontface gc)
                            (system_aliases d) (user_aliases d);
                 fontsize := PrimFloat.mul (cex gc) (ps gc);
                 bold := is_bold (fontface gc);
                 italic := is_italic (fontface gc);
                 txtwidth := httpgd_strwidth str gc d |}) d
  /\ (fst (width_lookup str gc d) <> 0 ->
      httpgd_text x y str rot hadj gc d
      = put (Text gc x y str rot hadj
                  {| font_family :=
                       fontname (fontfamily gc) (fontface gc)
                                (system_aliases d) (user_aliases d);
                     fontsize := PrimFloat.mul (cex gc) (ps gc);
                     bold := is_bold (fontface gc);
                     italic := is_italic (fontface gc);
                     txtwidth := 0%float |}) d)
  /\ (forall error measured,
        string_width
          str
          (fst (get_font_file (fontfamily gc) (fontface gc) (user_aliases d)))
          (snd (get_font_file (fontfamily gc) (fontface gc) (user_aliases d)))
          (PrimFloat.mul (ps gc) (cex gc)) 1e4%float 1 0%float
        = (error, measured) ->
        (error = 0 ->
         httpgd_text x y str rot hadj gc d
         = put (Text gc x y str rot hadj
                     {| font_family :=
                          fontname (fontfamily gc) (fontface gc)
                                   (system_aliases d) (user_aliases d);
                        fontsize := PrimFloat.mul (cex gc) (ps gc);
                        bold := is_bold (fontface gc);
                        italic := is_italic (fontface gc);
                        txtwidth :=
                          PrimFloat.div (PrimFloat.mul measured 72%float)
                                        1e4%float |}) d) /\
        (error <> 0 ->
         httpgd_text x y str rot hadj gc d
         = put (Text gc x y str rot hadj
                     {| font_family :=
                          fontname (fontfamily gc) (fontface gc)
                                   (system_aliases d) (user_aliases d);
                        fontsize := PrimFloat.mul (cex gc) (ps gc);
                        bold := is_bold (fontface gc);
                        italic := is_italic (fontface gc);
                        txtwidth := 0%float |}) d)).
Proof.
  split; [reflexivity |]. split.
  - intros Herr. unfold httpgd_text.
    now rewrite (strwidth_failure str gc d Herr).
  - intros error measured Hcall.
    rewrite (strwidth_service str gc d error measured Hcall).
    split.
    + intros ->. reflexivity.
    + intros Herr. apply Z.eqb_neq in Herr. now rewrite Herr.
Qed.

(** C8.  The single-character metrics are the same for a code and for its
    negation: a negative code is replaced by its absolute value before the
    glyph lookup, so the metrics depend on the absolute value alone.  (The
    negation of [INT_MIN] is [INT_MIN] itself in 32-bit arithmetic.) *)
Theorem metric_info_sign (c : Z) (gc : GEcontext) (cells : metrics)
        (d : Dev) :
  in_int c ->
  httpgd_metric_info (neg_int c) gc cells d = httpgd_metric_info c gc cells d
  /\ (INT_MIN < c ->
      (if c <? 0 then neg_int c else c) = Z.abs c /\
      httpgd_metric_info c gc cells d
      = httpgd_metric_info (Z.abs c) gc cells d).
Proof.
  intros Hc. split.
  - unfold httpgd_metric_info. cbv zeta.
    now rewrite (lookup_code_neg c Hc).
  - intros Hmin.
    assert (Hr : INT_MIN < c <= INT_MAX) by (unfold in_int in Hc; lia).
    split; [exact (lookup_code_abs c Hr) |].
    unfold httpgd_metric_info. cbv zeta.
    rewrite (lookup_code_abs c Hr).
    destruct (Z.ltb_spec (Z.abs c) 0) as [Hneg | _]; [lia | reflexivity].
Qed.

(** C10.  A path draw call with [npoly] sub-polygons and counts [nper]
    puts one [Path] command that holds the first [sum nper[0..npoly-1]]
    x-coordinates and as many y-coordinates of the input buffers, in the
    buffers' order. *)
Theorem path_copies_points (x y : list float) (npoly : Z) (nper : list Z)
        (winding : bool) (gc : GEcontext) (d : Dev) :
  0 <= npoly <= Z.of_nat (List.length nper) ->
  Forall (fun n => 0 <= n) (counts_read npoly nper) ->
  total (counts_read npoly nper) <= INT_MAX ->
  total (counts_read npoly nper) <= Z.of_nat (List.length x) ->
  total (counts_read npoly nper) <= Z.of_nat (List.length y) ->
  httpgd_path x y npoly nper winding gc d
  = Some (put (Path gc
                    (points_read (total (counts_read npoly nper)) x)
                    (points_read (total (counts_read npoly nper)) y)
                    npoly (counts_read npoly nper) winding) d)
  /\ Z.of_nat (List.length (points_read (total (counts_read npoly nper)) x))
     = total (counts_read npoly nper)
  /\ Z.of_nat (List.length (points_read (total (counts_read npoly nper)) y))
     = total (counts_read npoly nper)
  /\ (forall i : nat,
        Z.of_nat i < total (counts_read npoly nper) ->
        nth_error (points_read (total (counts_read npoly nper)) x) i
        = nth_error x i /\
        nth_error (points_read (total (counts_read npoly nper)) y) i
        = nth_error y i).
Proof.
  intros Hnpoly Hpos Hfit Hx Hy.
  pose proof (total_nonneg _ Hpos) as Htot.
  assert (Hloop : path_npoints (counts_read npoly nper) 0
                  = total (counts_read npoly nper)).
  { rewrite path_npoints_total; [lia | exact Hpos | lia | lia]. }
  split; [| split; [| split]].
  - unfold httpgd_path.
    rewrite (copy_range_some nper npoly Hnpoly).
    fold (counts_read npoly nper). cbv zeta. rewrite Hloop.
    rewrite (copy_range_some x) by lia.
    rewrite (copy_range_some y) by lia.
    reflexivity.
  - unfold points_read. rewrite length_firstn. lia.
  - unfold points_read. rewrite length_firstn. lia.
  - intros i Hi. unfold points_read.
    assert (Hlt : (i <? Z.to_nat (total (counts_read npoly nper)))%nat
                  = true) by (apply Nat.ltb_lt; lia).
    now rewrite !nth_error_firstn, Hlt.
Qed.

End Callbacks.

(** ** Heap and strings: facts *)

Lemma store_at_last {A : Type} (l : list A) (a b : A) :
  store_at (List.length l) a (l ++ [b]) = (l ++ [a])%list.
Proof.
  induction l as [| c l IH]; simpl; [reflexivity | now rewrite IH].
Qed.

Lemma nth_error_last {A : Type} (l : list A) (a : A) :
  nth_error (l ++ [a]) (List.length l) = Some a.
Proof.
  induction l as [| c l IH]; simpl; [reflexivity | exact IH].
Qed.

Lemma length_string_of_list_ascii (l : list ascii) :
  String.length (string_of_list_ascii l) = List.length l.
Proof.
  induction l as [| c l IH]; simpl; [reflexivity | now rewrite IH].
Qed.

Lemma empty_string_length (s : string) :
  negb (Nat.eqb (String.length s) 0) = true <-> s <> "".
Proof.
  destruct s as [| c s]; simpl; split; intros Hs;
    [discriminate | now elim Hs | discriminate | reflexivity].
Qed.

(** ** Device start and in-process management *)

Section Management.

Context {Dev : Type} {model : DeviceModel Dev} {engine : HostEngine}.

(** The session after a successful start: the engine has registered the
    new descriptor and the heap ends with the started device. *)
Lemma makehttpgdDevice_success (t_params : HttpgdDevStartParams)
      (t_config : HttpgdServerConfig) (w : World Dev) :
  R_GE_checkVersionOrDie R_GE_version = None ->
  R_CheckDeviceAvailable (R_Devices w) = None ->
  check_server_started (host t_config) (port t_config) = false ->
  calloc_DevDesc = true ->
  let dd := driver_fields t_params in
  let gdd :=
    GEcreateDevDesc (set_deviceSpecific (List.length (heap w)) dd) in
  makehttpgdDevice t_params t_config w
  = Ret tt
        {| R_Devices :=
             GEinitDisplayList gdd (GEaddDevice2 gdd "httpgd" (R_Devices w));
           heap :=
             heap w
             ++ [HttpgdObj
                   (start_server (HttpgdDev_new dd t_config t_params))] |}.
Proof.
  intros Hver Havail Hfree Hcalloc dd gdd.
  unfold makehttpgdDevice, httpgd_driver_new, bind, engine_check.
  rewrite Hver. simpl. rewrite Havail. simpl.
  rewrite Hfree, Hcalloc. simpl.
  rewrite nth_error_last. simpl.
  now rewrite store_at_last.
Qed.

(** A start that returns has passed every check. *)
Lemma makehttpgdDevice_ret (t_params : HttpgdDevStartParams)
      (t_config : HttpgdServerConfig) (w w' : World Dev) (u : unit) :
  makehttpgdDevice t_params t_config w = Ret u w' ->
  R_GE_checkVersionOrDie R_GE_version = None /\
  R_CheckDeviceAvailable (R_Devices w) = None /\
  check_server_started (host t_config) (port t_config) = false /\
  calloc_DevDesc = true.
Proof.
  unfold makehttpgdDevice, httpgd_driver_new, bind, engine_check, stop, ret.
  destruct (R_GE_checkVersionOrDie R_GE_version); [discriminate |].
  destruct (R_CheckDeviceAvailable (R_Devices w)); [discriminate |].
  destruct (check_server_started (host t_config) (port t_config));
    [discriminate |].
  destruct calloc_DevDesc; simpl; [| discriminate].
  intros _. repeat split.
Qed.

(** C3, as the code has it.  When a server already runs at the configured
    host and port, the start fails and leaves the session as it was: no
    device object, no device-table entry.  The graphics engine's version
    check and device-availability check come first: when both pass, the
    error is the "already running" one; when one of them refuses, the error
    is that check's. *)
Theorem start_collision (t_params : HttpgdDevStartParams)
        (t_config : HttpgdServerConfig) (w : World Dev) :
  check_server_started (host t_config) (port t_config) = true ->
  exists msg,
    makehttpgdDevice t_params t_config w = Stop msg w /\
    (R_GE_checkVersionOrDie R_GE_version = None ->
     R_CheckDeviceAvailable (R_Devices w) = None ->
     msg = "Failed to start httpgd. Server already running at this address!")
    /\
    (forall refusal,
        R_GE_checkVersionOrDie R_GE_version = Some refusal ->
        msg = refusal) /\
    (forall refusal,
        R_GE_checkVersionOrDie R_GE_version = None ->
        R_CheckDeviceAvailable (R_Devices w) = Some refusal ->
        msg = refusal).
Proof.
  intros Hrun.
  unfold makehttpgdDevice, bind, engine_check, stop, ret.
  destruct (R_GE_checkVersionOrDie R_GE_version) as [m1 |].
  - exists m1. split; [reflexivity |].
    split; [discriminate |].
    split; [intros refusal Hm; now injection Hm | discriminate].
  - destruct (R_CheckDeviceAvailable (R_Devices w)) as [m2 |].
    + exists m2. split; [reflexivity |].
      split; [discriminate |].
      split; [discriminate | intros refusal _ Hm; now injection Hm].
    + rewrite Hrun. eexists. split; [reflexivity |].
      split; [reflexivity |]. split; discriminate.
Qed.

(** C7.  A start that returns, returns [true]; the device it leaves on the
    heap was built from a configuration in which token authentication is
    on exactly when the supplied token is not empty; and the start does
    return when the colour is valid, the engine accepts a device, no
    server runs at the address and the descriptor is allocated. *)
Theorem httpgd_start (shost : string) (sport : Z) (sbg : string)
        (swidth sheight spointsize : float) (saliases : RList)
        (srecording scors : bool) (stoken : string) (w : World Dev) :
  (forall b w',
      httpgd_ shost sport sbg swidth sheight spointsize saliases
              srecording scors stoken w = Ret b w' ->
      b = true /\
      exists dd config params,
        nth_error (heap w') (List.length (heap w))
        = Some (HttpgdObj (start_server (HttpgdDev_new dd config params)))
        /\ (use_token config = true <-> stoken <> "")
        /\ token config = stoken
        /\ host config = shost
        /\ port config = sport) /\
  (forall col,
      R_GE_str2col sbg = inr col ->
      R_GE_checkVersionOrDie R_GE_version = None ->
      R_CheckDeviceAvailable (R_Devices w) = None ->
      check_server_started shost sport = false ->
      calloc_DevDesc = true ->
      exists w',
        httpgd_ shost sport sbg swidth sheight spointsize saliases
                srecording scors stoken w = Ret true w').
Proof.
  split.
  - intros b w' Hrun. unfold httpgd_ in Hrun.
    destruct (R_GE_str2col sbg) as [msg | col]; [discriminate |].
    unfold bind at 1 in Hrun.
    destruct (makehttpgdDevice _ _ w) as [u w1 | msg w1 |] eqn:Hmake;
      try discriminate.
    injection Hrun as <- <-.
    split; [reflexivity |].
    destruct (makehttpgdDevice_ret _ _ _ _ _ Hmake)
      as (Hver & Havail & Hfree & Hcalloc).
    rewrite (makehttpgdDevice_success _ _ w Hver Havail Hfree Hcalloc)
      in Hmake.
    injection Hmake as _ <-. simpl.
    eexists _, _, _. split; [apply nth_error_last |].
    simpl. repeat split; try apply empty_string_length.
  - intros col Hcol Hver Havail Hfree Hcalloc.
    unfold httpgd_. rewrite Hcol. unfold bind at 1.
    rewrite makehttpgdDevice_success by assumption.
    eexists. reflexivity.
Qed.

(** C9.  [read_txt] does not look at its argument: any two calls return
    the same text, the contents of the package's www/index.html. *)
Theorem read_txt_ignores_filepath :
  (forall filepath filepath', read_txt filepath = read_txt filepath') /\
  (forall text,
      ifstream (system_file "www" "index.html" "httpgd") = Some text ->
      forall filepath, read_txt filepath = text).
Proof.
  split.
  - reflexivity.
  - intros text Hfile filepath. unfold read_txt, get_wwwpath.
    now rewrite Hfile.
Qed.

(** C4.  [httpgd_random_token_] stops with an error exactly when [len] is
    negative; for [len >= 0], zero included, it returns a token of [len]
    characters. *)
Theorem random_token_length (rnd : nat -> ascii) (len : Z) (w : World Dev) :
  (reports_failure (httpgd_random_token_ rnd len w) <-> len < 0) /\
  (0 <= len ->
   exists tok,
     httpgd_random_token_ rnd len w = Ret tok w /\
     Z.of_nat (String.length tok) = len).
Proof.
  unfold httpgd_random_token_, reports_failure, stop, ret.
  destruct (Z.ltb_spec len 0) as [Hneg | Hpos]; split.
  - split; [intros _; exact Hneg | intros _; eexists _, _; reflexivity].
  - lia.
  - split; [intros (msg & w' & Habs); discriminate | lia].
  - intros _. eexists. split; [reflexivity |].
    unfold random_token.
    rewrite length_string_of_list_ascii, length_map, length_seq. lia.
Qed.

(** What [validate_httpgddev] answers for a device number that is out of
    range or reaches no device data. *)
Lemma validate_invalid (devnum : Z) (w : World Dev) :
  devnum < 1 \/ 64 < devnum \/ device_data devnum w = None ->
  exists msg,
    (msg = "invalid graphical device number" \/ msg = "invalid device") /\
    validate_httpgddev devnum w = Stop msg w.
Proof.
  intros Hbad. unfold validate_httpgddev, stop.
  rewrite Z.gtb_ltb.
  destruct (Z.ltb_spec devnum 1) as [Hlo | Hlo]; simpl.
  - eexists. split; [left |]; reflexivity.
  - destruct (Z.ltb_spec 64 devnum) as [Hhi | Hhi].
    + eexists. split; [left |]; reflexivity.
    + destruct Hbad as [Hbad | [Hbad | Hbad]]; [lia | lia |].
      unfold device_data in Hbad.
      exists "invalid device". split; [now right |].
      destruct (GEgetDevice (devnum - 1) w) as [gdd |]; [| reflexivity].
      destruct (dev gdd) as [dd |]; [| reflexivity].
      now rewrite Hbad.
Qed.

(** What it answers for a live httpgd device: the address of its object. *)
Lemma validate_live (devnum : Z) (w : World Dev) (d : Dev) :
  live_httpgd devnum w d ->
  exists p,
    validate_httpgddev devnum w = Ret p w /\
    nth_error (heap w) p = Some (HttpgdObj d).
Proof.
  intros ([Hlo Hhi] & p & Hdata & Hcell).
  exists p. split; [| exact Hcell].
  unfold validate_httpgddev. rewrite Z.gtb_ltb.
  destruct (Z.ltb_spec devnum 1); [lia |].
  destruct (Z.ltb_spec 64 devnum); [lia |]. simpl.
  unfold device_data in Hdata.
  destruct (GEgetDevice (devnum - 1) w) as [gdd |]; [| discriminate].
  destruct (dev gdd) as [dd |]; [| discriminate].
  now rewrite Hdata.
Qed.

(** C5, as the code has it.  For a device number below 1, above 64, or
    whose table slot leads to no device data (no descriptor, no device, or
    a null [deviceSpecific]), the state query, the SVG render, the page
    removal and the clear all stop with an R error and leave the session
    unchanged; on a live httpgd device the page removal returns the
    boolean of [store_remove]. *)
Theorem invalid_device_reported (devnum : Z) (w : World Dev) :
  (devnum < 1 \/ 64 < devnum \/ device_data devnum w = None ->
   exists msg,
     (msg = "invalid graphical device number" \/ msg = "invalid device") /\
     httpgd_state_ devnum w = Stop msg w /\
     (forall page width height,
         httpgd_svg_ devnum page width height w = Stop msg w) /\
     (forall page, httpgd_remove_ devnum page w = Stop msg w) /\
     httpgd_clear_ devnum w = Stop msg w) /\
  (forall d page,
      live_httpgd devnum w d ->
      exists w' : World Dev,
        httpgd_remove_ devnum page w = Ret (fst (store_remove page d)) w').
Proof.
  split.
  - intros Hbad.
    destruct (validate_invalid devnum w Hbad) as (msg & Hmsg & Hval).
    exists msg. split; [exact Hmsg |].
    unfold httpgd_state_, httpgd_svg_, httpgd_remove_, httpgd_clear_, bind.
    rewrite Hval. repeat split.
  - intros d page Hlive.
    destruct (validate_live devnum w d Hlive) as (p & Hval & Hcell).
    unfold httpgd_remove_, bind, load. rewrite Hval, Hcell.
    destruct (store_remove page d) as [removed d']. simpl.
    eexists. reflexivity.
Qed.

(** C6, as the code has it.  For a live httpgd device the state query
    returns exactly the fields host, port, token, hsize and upid, in this
    order: host and token from the server configuration, port from the
    server, hsize (the page count) and upid from the history store; the
    session is unchanged. *)
Theorem state_fields (devnum : Z) (w : World Dev) (d : Dev) :
  live_httpgd devnum w d ->
  httpgd_state_ devnum w
  = Ret [("host", Rstr (host (get_server_config d)));
         ("port", Rint (server_await_port d));
         ("token", Rstr (token (get_server_config d)));
         ("hsize", Rint (store_get_page_count d));
         ("upid", Rint (store_get_upid d))] w.
Proof.
  intros Hlive.
  destruct (validate_live devnum w d Hlive) as (p & Hval & Hcell).
  unfold httpgd_state_, bind, load. now rewrite Hval, Hcell.
Qed.

End Management.

(** ** The sample session, evaluated *)

Import Sample.

#[local] Existing Instance simple_dev.
#[local] Existing Instance host_engine.

Lemma metrics_failure_gives_zero_witness :
  fst (glyph_lookup (fonts := no_fonts) (model := simple_dev)
                    65 gc0 (3%float, 4%float, 5%float) dev0) <> 0 /\
  httpgd_metric_info (fonts := no_fonts) (model := simple_dev)
                     (-65) gc0 (3%float, 4%float, 5%float) dev0
  = (0%float, 0%float, 0%float) /\
  fst (width_lookup (fonts := no_fonts) (model := simple_dev)
                    "abc" gc0 dev0) <> 0 /\
  httpgd_strwidth (fonts := no_fonts) (model := simple_dev) "abc" gc0 dev0
  = 0%float.
Proof.
  destruct (metrics_failure_gives_zero (fonts := no_fonts)
                                       (model := simple_dev)) as [Hm Hs].
  assert (Hglyph :
            fst (glyph_lookup (fonts := no_fonts) (model := simple_dev)
                              65 gc0 (3%float, 4%float, 5%float) dev0) <> 0)
    by (simpl; lia).
  assert (Hwidth :
            fst (width_lookup (fonts := no_fonts) (model := simple_dev)
                              "abc" gc0 dev0) <> 0)
    by (simpl; lia).
  split; [exact Hglyph |].
  split; [exact (Hm (-65) gc0 _ dev0 Hglyph) |].
  split; [exact Hwidth | exact (Hs "abc" gc0 dev0 Hwidth)].
Defined.

Lemma text_records_info_witness :
  fst (width_lookup (fonts := no_fonts) (model := simple_dev)
                    "abc" gc0 dev0) <> 0 /\
  httpgd_text (fonts := no_fonts) (model := simple_dev)
              10%float 20%float "abc" 0%float 0%float gc0 dev0
  = put (DeviceModel := simple_dev)
        (Text gc0 10%float 20%float "abc" 0%float 0%float
              {| font_family := "sans"; fontsize := 12%float; bold := true;
                 italic := false; txtwidth := 0%float |}) dev0 /\
  string_width (FontService := one_font) "abc" "sans.ttf" 0
               (PrimFloat.mul 12%float 1%float) 1e4%float 1 0%float
  = (0, 5000%float) /\
  httpgd_text (fonts := one_font) (model := simple_dev)
              10%float 20%float "abc" 0%float 0%float gc0 dev0
  = put (DeviceModel := simple_dev)
        (Text gc0 10%float 20%float "abc" 0%float 0%float
              {| font_family := "sans"; fontsize := 12%float; bold := true;
                 italic := false; txtwidth := 36%float |}) dev0.
Proof.
  assert (Hwidth :
            fst (width_lookup (fonts := no_fonts) (model := simple_dev)
                              "abc" gc0 dev0) <> 0)
    by (simpl; lia).
  assert (Hcall :
            string_width (FontService := one_font) "abc" "sans.ttf" 0
                         (PrimFloat.mul 12%float 1%float) 1e4%float 1 0%float
            = (0, 5000%float))
    by reflexivity.
  split; [exact Hwidth |].
  split.
  - exact (proj1 (proj2 (text_records_info
                           (fonts := no_fonts) (model := simple_dev)
                           10%float 20%float "abc" 0%float 0%float
                           gc0 dev0)) Hwidth).
  - split; [exact Hcall |].
    exact (proj1 (proj2 (proj2 (text_records_info
                                  (fonts := one_font) (model := simple_dev)
                                  10%float 20%float "abc" 0%float 0%float
                                  gc0 dev0))
                        0 5000%float Hcall) eq_refl).
Defined.

Lemma metric_info_sign_witness :
  in_int (-65) /\ INT_MIN < -65 /\
  httpgd_metric_info (fonts := one_font) (model := simple_dev)
                     (neg_int (-65)) gc0 (0%float, 0%float, 0%float) dev0
  = httpgd_metric_info (fonts := one_font) (model := simple_dev)
                       (-65) gc0 (0%float, 0%float, 0%float) dev0 /\
  httpgd_metric_info (fonts := one_font) (model := simple_dev)
                     (-65) gc0 (0%float, 0%float, 0%float) dev0
  = httpgd_metric_info (fonts := one_font) (model := simple_dev)
                       (Z.abs (-65)) gc0 (0%float, 0%float, 0%float) dev0.
Proof.
  assert (Hint : in_int (-65)) by (unfold in_int, INT_MIN, INT_MAX; lia).
  assert (Hmin : INT_MIN < -65) by (unfold INT_MIN; lia).
  destruct (metric_info_sign (fonts := one_font) (model := simple_dev)
                             (-65) gc0 (0%float, 0%float, 0%float) dev0 Hint)
    as [Hneg Habs].
  split; [exact Hint |]. split; [exact Hmin |].
  split; [exact Hneg | exact (proj2 (Habs Hmin))].
Defined.

Lemma path_copies_points_witness :
  httpgd_path (model := simple_dev)
              [1%float; 2%float; 3%float; 4%float; 5%float; 6%float]
              [9%float; 8%float; 7%float; 6%float; 5%float; 4%float]
              2 [3; 2; 4] true gc0 dev0
  = Some (put (DeviceModel := simple_dev)
              (Path gc0
                    [1%float; 2%float; 3%float; 4%float; 5%float]
                    [9%float; 8%float; 7%float; 6%float; 5%float]
                    2 [3; 2] true) dev0).
Proof.
  refine (proj1 (path_copies_points
                   (model := simple_dev)
                   [1%float; 2%float; 3%float; 4%float; 5%float; 6%float]
                   [9%float; 8%float; 7%float; 6%float; 5%float; 4%float]
                   2 [3; 2; 4] true gc0 dev0 _ _ _ _ _)).
  - simpl; lia.
  - unfold counts_read; simpl. repeat constructor; lia.
  - unfold counts_read, INT_MAX; simpl; lia.
  - unfold counts_read; simpl; lia.
  - unfold counts_read; simpl; lia.
Defined.

Lemma start_collision_witness :
  check_server_started (HostEngine := host_engine)
                       (host config0) (port config0) = true /\
  makehttpgdDevice (model := simple_dev) (engine := host_engine)
                   params0 config0 w0
  = Stop "Failed to start httpgd. Server already running at this address!" w0
  /\
  R_CheckDeviceAvailable (HostEngine := host_engine) (R_Devices w_full)
  = Some "too many open devices" /\
  makehttpgdDevice (model := simple_dev) (engine := host_engine)
                   params0 config0 w_full
  = Stop "too many open devices" w_full.
Proof.
  split; [reflexivity |].
  split.
  - destruct (start_collision (model := simple_dev) (engine := host_engine)
                              params0 config0 w0 eq_refl)
      as (msg & Hstop & Hmsg & _).
    rewrite Hstop. f_equal. exact (Hmsg eq_refl eq_refl).
  - split; [reflexivity |].
    destruct (start_collision (model := simple_dev) (engine := host_engine)
                              params0 config0 w_full eq_refl)
      as (msg & Hstop & _ & _ & Havail).
    rewrite Hstop. f_equal. exact (Havail _ eq_refl eq_refl).
Defined.

(** With a server running at the address and the device table full, the
    start stops on the engine's device-availability check, before the probe
    for a running server: the error is the engine's, not the "already
    running" one. *)
Lemma full_table_hides_collision :
  check_server_started (HostEngine := host_engine)
                       (host config0) (port config0) = true /\
  makehttpgdDevice (model := simple_dev) (engine := host_engine)
                   params0 config0 w_full
  = Stop "too many open devices" w_full /\
  ~ collision_reported (model := simple_dev) (engine := host_engine)
      params0 config0 w_full.
Proof.
  split; [reflexivity |]. split; [reflexivity |].
  intros Hclaim. specialize (Hclaim eq_refl).
  vm_compute in Hclaim. discriminate Hclaim.
Qed.

Lemma httpgd_start_witness :
  exists w',
    httpgd_ (model := simple_dev) (engine := host_engine)
            "127.0.0.1" 8288 "white" 720%float 576%float 12%float []
            true false "abc123" w_empty = Ret true w' /\
    exists dd config params,
      nth_error (heap w') (List.length (heap w_empty))
      = Some (HttpgdObj (start_server (DeviceModel := simple_dev)
                           (HttpgdDev_new dd config params))) /\
      (use_token config = true <-> "abc123" <> "") /\
      token config = "abc123" /\
      host config = "127.0.0.1" /\
      port config = 8288.
Proof.
  destruct (httpgd_start (model := simple_dev) (engine := host_engine)
                         "127.0.0.1" 8288 "white" 720%float 576%float
                         12%float [] true false "abc123" w_empty)
    as [Hret Hrun].
  destruct (Hrun 4294967295 eq_refl eq_refl eq_refl eq_refl eq_refl)
    as [w' Hw'].
  exists w'. split; [exact Hw' | exact (proj2 (Hret true w' Hw'))].
Defined.

Lemma read_txt_ignores_filepath_witness :
  ifstream (HostEngine := host_engine)
           (system_file (HostEngine := host_engine)
                        "www" "index.html" "httpgd")
  = Some "<html></html>" /\
  read_txt (engine := host_engine) "live.html" = "<html></html>".
Proof.
  split; [reflexivity |].
  exact (proj2 (read_txt_ignores_filepath (engine := host_engine))
               "<html></html>" eq_refl "live.html").
Defined.

Lemma random_token_length_witness :
  0 <= 5 /\
  exists tok,
    httpgd_random_token_ letters 5 w0 = Ret tok w0 /\
    Z.of_nat (String.length tok) = 5.
Proof.
  assert (Hlen : 0 <= 5) by lia.
  split; [exact Hlen |].
  exact (proj2 (random_token_length letters 5 w0) Hlen).
Defined.

Lemma invalid_device_reported_witness :
  device_data 5 w0 = None /\
  live_httpgd 2 w0 dev0 /\
  (exists msg,
      (msg = "invalid graphical device number" \/ msg = "invalid device") /\
      httpgd_state_ (model := simple_dev) 5 w0 = Stop msg w0 /\
      (forall page width height,
          httpgd_svg_ (model := simple_dev) 5 page width height w0
          = Stop msg w0) /\
      (forall page,
          httpgd_remove_ (model := simple_dev) 5 page w0 = Stop msg w0) /\
      httpgd_clear_ (model := simple_dev) 5 w0 = Stop msg w0) /\
  (exists w',
      httpgd_remove_ (model := simple_dev) 2 1 w0
      = Ret (fst (store_remove (DeviceModel := simple_dev) 1 dev0)) w').
Proof.
  assert (Hnone : device_data 5 w0 = None) by reflexivity.
  assert (Hlive : live_httpgd 2 w0 dev0).
  { split; [lia |]. exists 0%nat. split; reflexivity. }
  split; [exact Hnone |]. split; [exact Hlive |].
  split.
  - exact (proj1 (invalid_device_reported (model := simple_dev) 5 w0)
                 (or_intror (or_intror Hnone))).
  - exact (proj2 (invalid_device_reported (model := simple_dev) 2 w0)
                 dev0 1 Hlive).
Defined.

Lemma state_fields_witness :
  live_httpgd 2 w0 dev0 /\
  httpgd_state_ (model := simple_dev) 2 w0
  = Ret [("host", Rstr "127.0.0.1"); ("port", Rint 8080);
         ("token", Rstr "abc123"); ("hsize", Rint 3); ("upid", Rint 17)] w0.
Proof.
  assert (Hlive : live_httpgd 2 w0 dev0).
  { split; [lia |]. exists 0%nat. split; reflexivity. }
  split; [exact Hlive |].
  exact (state_fields (model := simple_dev) 2 w0 dev0 Hlive).
Defined.

(** Device 3 of the sample session belongs to another driver.  Validation
    lets its number through, and every management function then uses the
    foreign object as a [HttpgdDev]. *)
Lemma foreign_device_outcomes :
  validate_httpgddev 3 w0 = Ret 1%nat w0 /\
  httpgd_state_ 3 w0 = Undefined /\
  httpgd_svg_ 3 1 720%float 576%float w0 = Undefined /\
  httpgd_remove_ 3 1 w0 = Undefined /\
  httpgd_clear_ 3 w0 = Undefined.
Proof. repeat split. Qed.

(** Device 3 is not a live httpgd device, and the management functions do
    not report it. *)
Lemma foreign_device_not_reported :
  ~ lookup_errors_reported (model := simple_dev) 3 w0.
Proof.
  intros Hclaim.
  destruct Hclaim as [Hstate _].
  - right; right. intros (d & _ & p & Hdata & Hcell).
    vm_compute in Hdata. injection Hdata as <-. discriminate Hcell.
  - destruct Hstate as (msg & w' & Habs). vm_compute in Habs. discriminate.
Qed.

(** Device 2 of the sample session is a live httpgd device, and its state
    has no field of the name page_count. *)
Lemma state_has_no_page_count :
  live_httpgd 2 w0 dev0 /\
  ~ state_fields_named (model := simple_dev)
      ["host"; "port"; "token"; "page_count"; "upid"] 2 w0.
Proof.
  split.
  - split; [lia |]. exists 0%nat. split; reflexivity.
  - intros (l & w' & Hrun & Hnames).
    vm_compute in Hrun. injection Hrun as <- _.
    discriminate Hnames.
Qed.

(** ** More on the drawing callbacks *)

Lemma copy_range_none {A : Type} (buf : list A) (n : Z) :
  copy_range buf n = None <-> n < 0 \/ Z.of_nat (List.length buf) < n.
Proof.
  unfold copy_range.
  destruct (Z.leb_spec 0 n), (Z.leb_spec n (Z.of_nat (List.length buf)));
    simpl; split; intros Hn; try discriminate; try reflexivity; lia.
Qed.

Lemma length_points_read (n : Z) (buf : list float) :
  0 <= n <= Z.of_nat (List.length buf) ->
  Z.of_nat (List.length (points_read n buf)) = n.
Proof.
  intros Hn. unfold points_read. rewrite length_firstn. lia.
Qed.

(** Binary64 multiplication does not depend on the order of its operands. *)
Lemma SFmul_comm (prec emax : Z) (x y : SpecFloat.spec_float) :
  SpecFloat.SFmul prec emax x y = SpecFloat.SFmul prec emax y x.
Proof.
  destruct x as [sx | sx | | sx mx ex], y as [sy | sy | | sy my ey]; simpl;
    try reflexivity; try (now rewrite xorb_comm).
  now rewrite xorb_comm, Pos.mul_comm, Z.add_comm.
Qed.

Lemma float_mul_comm (x y : float) : PrimFloat.mul x y = PrimFloat.mul y x.
Proof.
  apply FloatAxioms.Prim2SF_inj.
  rewrite !FloatAxioms.mul_spec. apply SFmul_comm.
Qed.

Section MoreCallbacks.

Context {Dev : Type} {fonts : FontService} {model : DeviceModel Dev}
        {pages : PageModel Dev}.

(** X1.  A polyline call whose [n] lies inside both buffers puts one
    [Polyline] command holding the first [n] x- and y-coordinates, in order;
    the call is undefined exactly when [n] is negative or runs past a
    buffer. *)
Theorem polyline_copies_points (n : Z) (x y : list float) (gc : GEcontext)
        (d : Dev) :
  (0 <= n ->
   n <= Z.of_nat (List.length x) ->
   n <= Z.of_nat (List.length y) ->
   httpgd_polyline n x y gc d
   = Some (put (Polyline gc n (points_read n x) (points_read n y)) d) /\
   Z.of_nat (List.length (points_read n x)) = n /\
   Z.of_nat (List.length (points_read n y)) = n) /\
  (httpgd_polyline n x y gc d = None <->
   n < 0 \/ Z.of_nat (List.length x) < n \/ Z.of_nat (List.length y) < n).
Proof.
  split.
  - intros Hn Hx Hy. unfold httpgd_polyline.
    rewrite (copy_range_some x), (copy_range_some y) by lia.
    repeat split; apply length_points_read; lia.
  - unfold httpgd_polyline.
    destruct (copy_range x n) as [vx |] eqn:Ex.
    + destruct (copy_range y n) as [vy |] eqn:Ey.
      * split; [discriminate |]. intros Hbad.
        assert (Hx : copy_range x n <> None) by (rewrite Ex; discriminate).
        assert (Hy : copy_range y n <> None) by (rewrite Ey; discriminate).
        rewrite copy_range_none in Hx, Hy. lia.
      * apply copy_range_none in Ey. split; [lia | reflexivity].
    + apply copy_range_none in Ex. split; [lia | reflexivity].
Qed.

(** X2.  A polygon call whose [n] lies inside both buffers puts one
    [Polygon] command holding the first [n] x- and y-coordinates, in order;
    the call is undefined exactly when [n] is negative or runs past a
    buffer. *)
Theorem polygon_copies_points (n : Z) (x y : list float) (gc : GEcontext)
        (d : Dev) :
  (0 <= n ->
   n <= Z.of_nat (List.length x) ->
   n <= Z.of_nat (List.length y) ->
   httpgd_polygon n x y gc d
   = Some (put (Polygon gc n (points_read n x) (points_read n y)) d) /\
   Z.of_nat (List.length (points_read n x)) = n /\
   Z.of_nat (List.length (points_read n y)) = n) /\
  (httpgd_polygon n x y gc d = None <->
   n < 0 \/ Z.of_nat (List.length x) < n \/ Z.of_nat (List.length y) < n).
Proof.
  split.
  - intros Hn Hx Hy. unfold httpgd_polygon.
    rewrite (copy_range_some x), (copy_range_some y) by lia.
    repeat split; apply length_points_read; lia.
  - unfold httpgd_polygon.
    destruct (copy_range x n) as [vx |] eqn:Ex.
    + destruct (copy_range y n) as [vy |] eqn:Ey.
      * split; [discriminate |]. intros Hbad.
        assert (Hx : copy_range x n <> None) by (rewrite Ex; discriminate).
        assert (Hy : copy_range y n <> None) by (rewrite Ey; discriminate).
        rewrite copy_range_none in Hx, Hy. lia.
      * apply copy_range_none in Ey. split; [lia | reflexivity].
    + apply copy_range_none in Ex. split; [lia | reflexivity].
Qed.

(** X3.  A path call with no sub-polygon reads nothing: whatever the
    buffers hold, and even when they are empty, it puts a [Path] command
    without points and without counts. *)
Theorem path_without_polygons (x y : list float) (nper : list Z)
        (winding : bool) (gc : GEcontext) (d : Dev) :
  httpgd_path x y 0 nper winding gc d
  = Some (put (Path gc [] [] 0 [] winding) d).
Proof.
  unfold httpgd_path.
  rewrite (copy_range_some nper 0) by lia. simpl.
  rewrite (copy_range_some x 0), (copy_range_some y 0) by lia.
  reflexivity.
Qed.

(** X4.  A path with a single sub-polygon of [n] points records the same
    coordinates as a polygon call with [n] points on the same buffers. *)
Theorem path_of_one_polygon (n : Z) (x y : list float) (winding : bool)
        (gc : GEcontext) (d : Dev) :
  0 <= n <= INT_MAX ->
  n <= Z.of_nat (List.length x) ->
  n <= Z.of_nat (List.length y) ->
  exists vx vy,
    httpgd_path x y 1 [n] winding gc d
    = Some (put (Path gc vx vy 1 [n] winding) d) /\
    httpgd_polygon n x y gc d = Some (put (Polygon gc n vx vy) d).
Proof.
  intros Hn Hx Hy.
  exists (points_read n x), (points_read n y).
  unfold httpgd_path, httpgd_polygon.
  rewrite (copy_range_some [n] 1) by (simpl; lia). simpl.
  rewrite add_int_small by (unfold in_int, INT_MIN, INT_MAX in *; lia).
  simpl.
  rewrite (copy_range_some x), (copy_range_some y) by lia.
  split; reflexivity.
Qed.

(** X5.  A raster call of [w] by [h] pixels, with the product inside an
    [int] and inside the pixel buffer, puts one raster command holding the
    first [w * h] pixels, in order; with [w] or [h] zero it holds none. *)
Theorem raster_copies_pixels (raster : list Z) (w h : Z)
        (x y width height rot : float) (interpolate : bool)
        (gc : GEcontext) (d : Dev) :
  0 <= w ->
  0 <= h ->
  w * h <= INT_MAX ->
  w * h <= Z.of_nat (List.length raster) ->
  httpgd_raster raster w h x y width height rot interpolate gc d
  = Some (put_raster
            {| ras_gc := gc;
               ras_raster := firstn (Z.to_nat (w * h)) raster;
               ras_w := w; ras_h := h; ras_x := x; ras_y := y;
               ras_width := width; ras_height := height; ras_rot := rot;
               ras_interpolate := interpolate |} d) /\
  Z.of_nat (List.length (firstn (Z.to_nat (w * h)) raster)) = w * h /\
  (w * h = 0 -> firstn (Z.to_nat (w * h)) raster = []).
Proof.
  intros Hw Hh Hfit Hbuf.
  assert (Hpos : 0 <= w * h) by nia.
  split; [| split].
  - unfold httpgd_raster, mul_int.
    rewrite wrap_int_small by (unfold in_int, INT_MIN, INT_MAX in *; lia).
    now rewrite (copy_range_some raster) by lia.
  - rewrite length_firstn. lia.
  - intros ->. reflexivity.
Qed.

(** X6.  The width a [Text] command records was measured at the font size
    it records: the command stores the size [cex * ps] and, as width, what
    the font service returns for the string at that very size (scaled by
    72 / 1e4, or 0 when the service fails).  The measurement asks for
    [ps * cex]; the two products are the same binary64 number. *)
Theorem text_size_is_measured_size (x y : float) (str : string)
        (rot hadj : float) (gc : GEcontext) (d : Dev) :
  let size := PrimFloat.mul (cex gc) (ps gc) in
  let answer :=
    string_width
      str
      (fst (get_font_file (fontfamily gc) (fontface gc) (user_aliases d)))
      (snd (get_font_file (fontfamily gc) (fontface gc) (user_aliases d)))
      size 1e4%float 1 0%float in
  httpgd_text x y str rot hadj gc d
  = put (Text gc x y str rot hadj
              {| font_family :=
                   fontname (fontfamily gc) (fontface gc)
                            (system_aliases d) (user_aliases d);
                 fontsize := size;
                 bold := is_bold (fontface gc);
                 italic := is_italic (fontface gc);
                 txtwidth :=
                   PrimFloat.div
                     (PrimFloat.mul
                        (if fst answer =? 0 then snd answer else 0%float)
                        72%float)
                     1e4%float |}) d
  /\ httpgd_strwidth str gc d
     = PrimFloat.div
         (PrimFloat.mul
            (if fst answer =? 0 then snd answer else 0%float)
            72%float)
         1e4%float.
Proof.
  intros size answer. subst size answer.
  rewrite (float_mul_comm (cex gc) (ps gc)).
  destruct (string_width
              str
              (fst (get_font_file (fontfamily gc) (fontface gc)
                                  (user_aliases d)))
              (snd (get_font_file (fontfamily gc) (fontface gc)
                                  (user_aliases d)))
              (PrimFloat.mul (ps gc) (cex gc)) 1e4%float 1 0%float)
    as [error measured] eqn:Hcall.
  assert (Hstr : httpgd_strwidth str gc d
                 = PrimFloat.div
                     (PrimFloat.mul
                        (if error =? 0 then measured else 0%float) 72%float)
                     1e4%float).
  { unfold httpgd_strwidth, width_lookup. cbv zeta. rewrite Hcall.
    simpl. now destruct (error =? 0). }
  split; [| exact Hstr].
  unfold httpgd_text. rewrite Hstr.
  now rewrite (float_mul_comm (ps gc) (cex gc)).
Qed.

(** X7.  The first page of a device takes the size and the background given
    at start: on the descriptor that [httpgd_driver_new] builds from the
    start parameters, the new-page callback opens a page of the parameters'
    width, height and background colour. *)
Theorem new_page_uses_start_params {engine : HostEngine}
        (t_params : HttpgdDevStartParams) (t_config : HttpgdServerConfig)
        (w w' : World Dev) (dd : DevDesc) (gc : GEcontext) (d : Dev) :
  httpgd_driver_new t_params t_config w = Ret (Some dd) w' ->
  httpgd_new_page gc dd d
  = new_page (width t_params) (height t_params) (bg t_params) d.
Proof.
  unfold httpgd_driver_new.
  destruct calloc_DevDesc; simpl; [| discriminate].
  unfold bind, new_HttpgdDev, ret. intros Hnew.
  injection Hnew as <- _. reflexivity.
Qed.

End MoreCallbacks.

(** ** More on device start and in-process management *)

Lemma length_store_at {A : Type} (p : nat) (a : A) (l : list A) :
  List.length (store_at p a l) = List.length l.
Proof.
  revert p. induction l as [| b l IH]; intros [| p]; simpl;
    try reflexivity. now rewrite IH.
Qed.

Lemma nth_error_store_at_eq {A : Type} (p : nat) (a b : A) (l : list A) :
  nth_error l p = Some b -> nth_error (store_at p a l) p = Some a.
Proof.
  revert p. induction l as [| c l IH]; intros [| p]; simpl;
    try discriminate; [reflexivity | apply IH].
Qed.

Lemma nth_error_store_at_neq {A : Type} (p q : nat) (a : A) (l : list A) :
  q <> p -> nth_error (store_at p a l) q = nth_error l q.
Proof.
  revert p q. induction l as [| c l IH]; intros [| p] [| q] Hq; simpl;
    try reflexivity; [now elim Hq | apply IH; congruence].
Qed.

Lemma nth_error_app_old {A : Type} (l : list A) (a b : A) (p : nat) :
  nth_error l p = Some b -> nth_error (l ++ [a]) p = Some b.
Proof.
  intros Hp. rewrite nth_error_app1; [exact Hp |].
  apply nth_error_Some. rewrite Hp. discriminate.
Qed.

Section MoreManagement.

Context {Dev : Type} {model : DeviceModel Dev} {engine : HostEngine}.

(** Replacing a device object keeps its device live, with the new object. *)
Lemma live_with_device_same (devnum : Z) (w : World Dev) (d d' : Dev)
      (p : addr) :
  live_httpgd devnum w d ->
  device_data devnum w = Some p ->
  live_httpgd devnum (with_device p d' w) d'.
Proof.
  intros (Hrange & q & Hdata & Hcell) Hp.
  rewrite Hp in Hdata. injection Hdata as <-.
  split; [exact Hrange |]. exists p. split; [exact Hp |].
  simpl. exact (nth_error_store_at_eq _ _ _ _ Hcell).
Qed.

(** Replacing a device object leaves the devices at other addresses live. *)
Lemma live_with_device_other (n : Z) (w : World Dev) (d2 d' : Dev)
      (p : addr) :
  live_httpgd n w d2 ->
  device_data n w <> Some p ->
  live_httpgd n (with_device p d' w) d2.
Proof.
  intros (Hrange & q & Hdata & Hcell) Hother.
  split; [exact Hrange |]. exists q. split; [exact Hdata |].
  simpl. rewrite nth_error_store_at_neq; [exact Hcell |].
  intros ->. now apply Hother.
Qed.

(** The run of a page removal on a live device. *)
Lemma remove_run (devnum page : Z) (w : World Dev) (d : Dev) :
  live_httpgd devnum w d ->
  exists p,
    device_data devnum w = Some p /\
    httpgd_remove_ devnum page w
    = Ret (fst (store_remove page d))
          (with_device p (snd (store_remove page d)) w).
Proof.
  intros Hlive.
  destruct (validate_live devnum w d Hlive) as (p & Hval & Hcell).
  destruct Hlive as (_ & q & Hdata & Hq).
  exists q. split; [exact Hdata |].
  unfold httpgd_remove_, bind, load. rewrite Hval, Hcell.
  destruct (store_remove page d) as [removed d']. simpl.
  unfold validate_httpgddev in Hval.
  destruct ((devnum <? 1) || (devnum >? 64)); [discriminate |].
  unfold device_data in Hdata.
  destruct (GEgetDevice (devnum - 1) w) as [gdd |]; [| discriminate].
  destruct (dev gdd) as [dd |]; [| discriminate].
  rewrite Hdata in Hval. injection Hval as <-. reflexivity.
Qed.

(** The run of a clear on a live device. *)
Lemma clear_run (devnum : Z) (w : World Dev) (d : Dev) :
  live_httpgd devnum w d ->
  exists p,
    device_data devnum w = Some p /\
    httpgd_clear_ devnum w
    = Ret (fst (store_clear d)) (with_device p (snd (store_clear d)) w).
Proof.
  intros Hlive.
  destruct (validate_live devnum w d Hlive) as (p & Hval & Hcell).
  destruct Hlive as (_ & q & Hdata & Hq).
  exists q. split; [exact Hdata |].
  unfold httpgd_clear_, bind, load. rewrite Hval, Hcell.
  destruct (store_clear d) as [cleared d']. simpl.
  unfold validate_httpgddev in Hval.
  destruct ((devnum <? 1) || (devnum >? 64)); [discriminate |].
  unfold device_data in Hdata.
  destruct (GEgetDevice (devnum - 1) w) as [gdd |]; [| discriminate].
  destruct (dev gdd) as [dd |]; [| discriminate].
  rewrite Hdata in Hval. injection Hval as <-. reflexivity.
Qed.

(** The state query on a live device. *)
Lemma state_run (devnum : Z) (w : World Dev) (d : Dev) :
  live_httpgd devnum w d -> httpgd_state_ devnum w = Ret (state_of d) w.
Proof.
  intros Hlive.
  destruct (validate_live devnum w d Hlive) as (p & Hval & Hcell).
  unfold httpgd_state_, bind, load, state_of. now rewrite Hval, Hcell.
Qed.

(** X8.  Validation has three outcomes and never touches the session: a
    number outside 1..64 is refused as an invalid device number before the
    device table is looked at; a number in range that reaches no device
    data is refused as an invalid device; any other number yields the
    [deviceSpecific] pointer found in the table. *)
Theorem validate_outcomes (devnum : Z) (w : World Dev) :
  (devnum < 1 \/ 64 < devnum ->
   validate_httpgddev devnum w = Stop "invalid graphical device number" w) /\
  (1 <= devnum <= 64 ->
   device_data devnum w = None ->
   validate_httpgddev devnum w = Stop "invalid device" w) /\
  (forall p,
      1 <= devnum <= 64 ->
      device_data devnum w = Some p ->
      validate_httpgddev devnum w = Ret p w).
Proof.
  unfold validate_httpgddev, device_data, stop. rewrite Z.gtb_ltb.
  destruct (Z.ltb_spec devnum 1), (Z.ltb_spec 64 devnum); simpl;
    (split; [| split]); try reflexivity; try lia.
  - intros _ Hnone.
    destruct (GEgetDevice (devnum - 1) w) as [gdd |]; [| reflexivity].
    destruct (dev gdd) as [dd |]; [| reflexivity]. now rewrite Hnone.
  - intros p _ Hsome.
    destruct (GEgetDevice (devnum - 1) w) as [gdd |]; [| discriminate].
    destruct (dev gdd) as [dd |]; [| discriminate]. now rewrite Hsome.
Qed.

(** X9.  Rendering a page of a live httpgd device in-process returns what
    the store renders, for every page number and size, and leaves the
    session as it was. *)
Theorem svg_reads_only (devnum page : Z) (width height : float)
        (w : World Dev) (d : Dev) :
  live_httpgd devnum w d ->
  httpgd_svg_ devnum page width height w
  = Ret (store_svg page width height d) w.
Proof.
  intros Hlive.
  destruct (validate_live devnum w d Hlive) as (p & Hval & Hcell).
  unfold httpgd_svg_, bind, load. now rewrite Hval, Hcell.
Qed.

(** X10.  Removing a page of a live httpgd device changes that device's
    object and nothing else: the device table is as before, the device is
    still live and holds the store after the removal, and every live device
    behind another pointer keeps its object. *)
Theorem remove_touches_one_device (devnum page : Z) (w : World Dev)
        (d : Dev) :
  live_httpgd devnum w d ->
  exists w',
    httpgd_remove_ devnum page w = Ret (fst (store_remove page d)) w' /\
    R_Devices w' = R_Devices w /\
    List.length (heap w') = List.length (heap w) /\
    live_httpgd devnum w' (snd (store_remove page d)) /\
    (forall n d2,
        live_httpgd n w d2 ->
        device_data n w <> device_data devnum w ->
        live_httpgd n w' d2).
Proof.
  intros Hlive.
  destruct (remove_run devnum page w d Hlive) as (p & Hdata & Hrun).
  eexists. split; [exact Hrun |].
  split; [reflexivity |].
  split; [apply length_store_at |].
  split; [exact (live_with_device_same _ _ _ _ _ Hlive Hdata) |].
  intros n d2 Hn Hother. rewrite Hdata in Hother.
  exact (live_with_device_other _ _ _ _ _ Hn Hother).
Qed.

(** X11.  Clearing a live httpgd device changes that device's object and
    nothing else: the device table is as before, the device is still live
    and holds the cleared store, and every live device behind another
    pointer keeps its object. *)
Theorem clear_touches_one_device (devnum : Z) (w : World Dev) (d : Dev) :
  live_httpgd devnum w d ->
  exists w',
    httpgd_clear_ devnum w = Ret (fst (store_clear d)) w' /\
    R_Devices w' = R_Devices w /\
    List.length (heap w') = List.length (heap w) /\
    live_httpgd devnum w' (snd (store_clear d)) /\
    (forall n d2,
        live_httpgd n w d2 ->
        device_data n w <> device_data devnum w ->
        live_httpgd n w' d2).
Proof.
  intros Hlive.
  destruct (clear_run devnum w d Hlive) as (p & Hdata & Hrun).
  eexists. split; [exact Hrun |].
  split; [reflexivity |].
  split; [apply length_store_at |].
  split; [exact (live_with_device_same _ _ _ _ _ Hlive Hdata) |].
  intros n d2 Hn Hother. rewrite Hdata in Hother.
  exact (live_with_device_other _ _ _ _ _ Hn Hother).
Qed.

(** X12.  A state query that follows a page removal or a clear on the same
    live device answers for the device as the removal, or the clear, left
    it. *)
Theorem state_after_update (devnum page : Z) (w : World Dev) (d : Dev) :
  live_httpgd devnum w d ->
  (exists w',
      httpgd_remove_ devnum page w = Ret (fst (store_remove page d)) w' /\
      httpgd_state_ devnum w' = Ret (state_of (snd (store_remove page d))) w')
  /\
  (exists w',
      httpgd_clear_ devnum w = Ret (fst (store_clear d)) w' /\
      httpgd_state_ devnum w' = Ret (state_of (snd (store_clear d))) w').
Proof.
  intros Hlive. split.
  - destruct (remove_run devnum page w d Hlive) as (p & Hdata & Hrun).
    eexists. split; [exact Hrun |].
    apply state_run. exact (live_with_device_same _ _ _ _ _ Hlive Hdata).
  - destruct (clear_run devnum w d Hlive) as (p & Hdata & Hrun).
    eexists. split; [exact Hrun |].
    apply state_run. exact (live_with_device_same _ _ _ _ _ Hlive Hdata).
Qed.

End MoreManagement.

Section MoreStart.

Context {Dev : Type} {model : DeviceModel Dev} {engine : HostEngine}.

(** Every run of the start: either it stops, for one of four causes, with
    the session as it was, or all four checks pass and a device is added. *)
Lemma makehttpgdDevice_cases (t_params : HttpgdDevStartParams)
      (t_config : HttpgdServerConfig) (w : World Dev) :
  (exists msg,
      makehttpgdDevice t_params t_config w = Stop msg w /\
      (R_GE_checkVersionOrDie R_GE_version = Some msg \/
       (R_GE_checkVersionOrDie R_GE_version = None /\
        R_CheckDeviceAvailable (R_Devices w) = Some msg) \/
       (check_server_started (host t_config) (port t_config) = true /\
        msg = "Failed to start httpgd. Server already running at this address!")
       \/
       (calloc_DevDesc = false /\ msg = "Failed to start httpgd."))) \/
  (exists w',
      makehttpgdDevice t_params t_config w = Ret tt w' /\
      heap w'
      = (heap w
         ++ [HttpgdObj
               (start_server
                  (HttpgdDev_new (driver_fields t_params) t_config t_params))])
          %list).
Proof.
  destruct (R_GE_checkVersionOrDie R_GE_version) as [m1 |] eqn:Hver.
  { left. exists m1. split; [| now left].
    unfold makehttpgdDevice, bind, engine_check. now rewrite Hver. }
  destruct (R_CheckDeviceAvailable (R_Devices w)) as [m2 |] eqn:Havail.
  { left. exists m2. split; [| right; left; now split].
    unfold makehttpgdDevice, bind, engine_check. rewrite Hver. simpl.
    now rewrite Havail. }
  destruct (check_server_started (host t_config) (port t_config)) eqn:Hrun.
  { left. eexists. split; [| right; right; left; split; reflexivity].
    unfold makehttpgdDevice, bind, engine_check. rewrite Hver. simpl.
    rewrite Havail. simpl. now rewrite Hrun. }
  destruct calloc_DevDesc eqn:Hcalloc.
  - right. eexists. split.
    + exact (makehttpgdDevice_success t_params t_config w
                                      Hver Havail Hrun Hcalloc).
    + reflexivity.
  - left. eexists. split; [| right; right; right; split; reflexivity].
    unfold makehttpgdDevice, httpgd_driver_new, bind, engine_check.
    rewrite Hver. simpl. rewrite Havail. simpl. rewrite Hrun, Hcalloc.
    reflexivity.
Qed.

(** X13.  A start that fails leaves the session as it was, and it fails for
    one of four causes only: the engine's version check, the engine's
    device-availability check, a server already running at the address, or
    no memory for the descriptor; in the last case, when the first three
    pass and [calloc] returns the null pointer, the error is "Failed to
    start httpgd.".  No run of the start is undefined. *)
Theorem start_fails_cleanly (t_params : HttpgdDevStartParams)
        (t_config : HttpgdServerConfig) (w : World Dev) :
  makehttpgdDevice t_params t_config w <> Undefined /\
  (forall msg w',
      makehttpgdDevice t_params t_config w = Stop msg w' ->
      w' = w /\
      (R_GE_checkVersionOrDie R_GE_version = Some msg \/
       R_CheckDeviceAvailable (R_Devices w) = Some msg \/
       (check_server_started (host t_config) (port t_config) = true /\
        msg = "Failed to start httpgd. Server already running at this address!")
       \/
       (calloc_DevDesc = false /\ msg = "Failed to start httpgd."))) /\
  (R_GE_checkVersionOrDie R_GE_version = None ->
   R_CheckDeviceAvailable (R_Devices w) = None ->
   check_server_started (host t_config) (port t_config) = false ->
   calloc_DevDesc = false ->
   makehttpgdDevice t_params t_config w = Stop "Failed to start httpgd." w).
Proof.
  destruct (makehttpgdDevice_cases t_params t_config w)
    as [(msg & Hstop & Hcause) | (w1 & Hret & _)].
  - split; [rewrite Hstop; discriminate |]. split.
    + intros msg' w' Hrun. rewrite Hstop in Hrun.
      injection Hrun as <- <-. split; [reflexivity |].
      destruct Hcause as [Hc | [[_ Hc] | [Hc | Hc]]]; tauto.
    + intros Hver Havail Hfree Hcalloc.
      destruct Hcause as [Hc | [[_ Hc] | [[Hc _] | [_ ->]]]];
        [congruence | congruence | congruence | exact Hstop].
  - split; [rewrite Hret; discriminate |]. split.
    + intros msg w' Hrun. rewrite Hret in Hrun. discriminate.
    + intros Hver Havail Hfree Hcalloc.
      destruct (makehttpgdDevice_ret _ _ _ _ _ Hret) as (_ & _ & _ & Hc).
      congruence.
Qed.

(** X14.  A start that returns adds exactly one object to the heap, the
    started device built from the given configuration and parameters, at the
    first free address; every object that was on the heap is still there,
    at its address. *)
Theorem start_keeps_existing_devices (t_params : HttpgdDevStartParams)
        (t_config : HttpgdServerConfig) (w w' : World Dev) (u : unit) :
  makehttpgdDevice t_params t_config w = Ret u w' ->
  List.length (heap w') = S (List.length (heap w)) /\
  nth_error (heap w') (List.length (heap w))
  = Some (HttpgdObj
            (start_server
               (HttpgdDev_new (driver_fields t_params) t_config t_params))) /\
  (forall p obj,
      nth_error (heap w) p = Some obj -> nth_error (heap w') p = Some obj).
Proof.
  intros Hrun.
  destruct (makehttpgdDevice_cases t_params t_config w)
    as [(msg & Hstop & _) | (w1 & Hret & Hheap)].
  - rewrite Hstop in Hrun. discriminate.
  - rewrite Hret in Hrun. injection Hrun as _ <-. rewrite Hheap.
    split; [rewrite length_app; simpl; lia |].
    split; [apply nth_error_last |].
    intros p obj. apply nth_error_app_old.
Qed.

(** X15.  Start, then query: when the start returns and the engine has
    entered the new descriptor as device [devnum], the state query for
    [devnum] answers for the started device. *)
Theorem state_after_start (t_params : HttpgdDevStartParams)
        (t_config : HttpgdServerConfig) (w w' : World Dev) (u : unit)
        (devnum : Z) :
  makehttpgdDevice t_params t_config w = Ret u w' ->
  1 <= devnum <= 64 ->
  device_data devnum w' = Some (List.length (heap w)) ->
  httpgd_state_ devnum w'
  = Ret (state_of
           (start_server
              (HttpgdDev_new (driver_fields t_params) t_config t_params)))
        w'.
Proof.
  intros Hrun Hrange Hdata.
  destruct (makehttpgdDevice_cases t_params t_config w)
    as [(msg & Hstop & _) | (w1 & Hret & Hheap)].
  - rewrite Hstop in Hrun. discriminate.
  - rewrite Hret in Hrun. injection Hrun as _ <-.
    apply state_run. split; [exact Hrange |].
    exists (List.length (heap w)). split; [exact Hdata |].
    rewrite Hheap. apply nth_error_last.
Qed.

(** X16.  The exported start checks the background colour first: with a
    colour the engine rejects it stops with the engine's error whatever else
    holds.  Whenever it stops the session is as it was, and no run of it is
    undefined. *)
Theorem httpgd_fails_cleanly (shost : string) (sport : Z) (sbg : string)
        (swidth sheight spointsize : float) (saliases : RList)
        (srecording scors : bool) (stoken : string) (w : World Dev) :
  (forall msg,
      R_GE_str2col sbg = inl msg ->
      httpgd_ shost sport sbg swidth sheight spointsize saliases
              srecording scors stoken w = Stop msg w) /\
  (forall msg w',
      httpgd_ shost sport sbg swidth sheight spointsize saliases
              srecording scors stoken w = Stop msg w' -> w' = w) /\
  httpgd_ shost sport sbg swidth sheight spointsize saliases
          srecording scors stoken w <> Undefined.
Proof.
  unfold httpgd_.
  destruct (R_GE_str2col sbg) as [m | col].
  - split; [| split].
    + intros msg Hmsg. now injection Hmsg as <-.
    + intros msg w' Hrun. now injection Hrun as _ <-.
    + discriminate.
  - unfold bind.
    match goal with
    | |- context [makehttpgdDevice ?p ?c w] =>
        destruct (makehttpgdDevice_cases p c w)
          as [(msg & -> & _) | (w1 & -> & _)]
    end.
    + split; [| split].
      * discriminate.
      * intros msg' w' Hrun. now injection Hrun as _ <-.
      * discriminate.
    + split; [| split]; discriminate.
Qed.

(** X17.  When the exported start returns, the device it leaves at the
    first free heap address was built from exactly what the caller passed:
    the colour stored as an [int], the size, point size and aliases as
    parameters; host, port, CORS flag, token and recording flag in the
    server configuration, together with the text of the package's
    www/index.html as the page to serve. *)
Theorem httpgd_builds_from_arguments (shost : string) (sport : Z)
        (sbg : string) (swidth sheight spointsize : float)
        (saliases : RList) (srecording scors : bool) (stoken : string)
        (w w' : World Dev) (b : bool) (col : Z) (text : string) :
  httpgd_ shost sport sbg swidth sheight spointsize saliases
          srecording scors stoken w = Ret b w' ->
  R_GE_str2col sbg = inr col ->
  ifstream (system_file "www" "index.html" "httpgd") = Some text ->
  nth_error (heap w') (List.length (heap w))
  = Some (HttpgdObj
            (start_server
               (HttpgdDev_new
                  (driver_fields
                     {| bg := wrap_int col; width := swidth;
                        height := sheight; pointsize := spointsize;
                        aliases := saliases |})
                  {| host := shost; port := sport; wwwlive := text;
                     cors := scors;
                     use_token := negb (String.eqb stoken "");
                     token := stoken; record_history := srecording |}
                  {| bg := wrap_int col; width := swidth;
                     height := sheight; pointsize := spointsize;
                     aliases := saliases |}))).
Proof.
  intros Hrun Hcol Hfile. unfold httpgd_ in Hrun. rewrite Hcol in Hrun.
  unfold bind at 1 in Hrun.
  unfold read_txt, get_wwwpath in Hrun. rewrite Hfile in Hrun.
  match type of Hrun with
  | context [makehttpgdDevice ?p ?c w] =>
      destruct (makehttpgdDevice_cases p c w)
        as [(msg & Hstop & _) | (w1 & Hret & Hheap)]
  end.
  - rewrite Hstop in Hrun. discriminate.
  - rewrite Hret in Hrun. injection Hrun as _ <-.
    rewrite Hheap, nth_error_last.
    destruct stoken; reflexivity.
Qed.

End MoreStart.

(** ** The sample session, evaluated further *)

#[local] Existing Instance simple_pages.

Lemma polyline_copies_points_witness :
  0 <= 2 /\
  2 <= Z.of_nat (List.length [1%float; 2%float; 3%float]) /\
  2 <= Z.of_nat (List.length [9%float; 8%float]) /\
  httpgd_polyline 2 [1%float; 2%float; 3%float] [9%float; 8%float] gc0 dev0
  = Some (put (Polyline gc0 2 [1%float; 2%float] [9%float; 8%float]) dev0) /\
  (3 < 0 \/ Z.of_nat (List.length [1%float; 2%float; 3%float]) < 3 \/
   Z.of_nat (List.length [9%float; 8%float]) < 3) /\
  httpgd_polyline 3 [1%float; 2%float; 3%float] [9%float; 8%float] gc0 dev0
  = None.
Proof.
  assert (H0 : 0 <= 2) by lia.
  assert (Hx : 2 <= Z.of_nat (List.length [1%float; 2%float; 3%float]))
    by (simpl; lia).
  assert (Hy : 2 <= Z.of_nat (List.length [9%float; 8%float]))
    by (simpl; lia).
  assert (Hbad : 3 < 0 \/
                 Z.of_nat (List.length [1%float; 2%float; 3%float]) < 3 \/
                 Z.of_nat (List.length [9%float; 8%float]) < 3)
    by (simpl; lia).
  repeat (split; [assumption |]).
  split.
  - exact (proj1 (proj1 (polyline_copies_points
                           2 [1%float; 2%float; 3%float] [9%float; 8%float]
                           gc0 dev0) H0 Hx Hy)).
  - split; [exact Hbad |].
    exact (proj2 (proj2 (polyline_copies_points
                           3 [1%float; 2%float; 3%float] [9%float; 8%float]
                           gc0 dev0)) Hbad).
Defined.

Lemma polygon_copies_points_witness :
  0 <= 3 /\
  3 <= Z.of_nat (List.length [1%float; 2%float; 3%float]) /\
  3 <= Z.of_nat (List.length [9%float; 8%float; 7%float; 6%float]) /\
  httpgd_polygon 3 [1%float; 2%float; 3%float]
                 [9%float; 8%float; 7%float; 6%float] gc0 dev0
  = Some (put (Polygon gc0 3 [1%float; 2%float; 3%float]
                       [9%float; 8%float; 7%float]) dev0) /\
  (-1 < 0 \/ Z.of_nat (List.length [1%float; 2%float; 3%float]) < -1 \/
   Z.of_nat (List.length [9%float; 8%float; 7%float; 6%float]) < -1) /\
  httpgd_polygon (-1) [1%float; 2%float; 3%float]
                 [9%float; 8%float; 7%float; 6%float] gc0 dev0
  = None.
Proof.
  assert (H0 : 0 <= 3) by lia.
  assert (Hx : 3 <= Z.of_nat (List.length [1%float; 2%float; 3%float]))
    by (simpl; lia).
  assert (Hy : 3 <= Z.of_nat
                      (List.length [9%float; 8%float; 7%float; 6%float]))
    by (simpl; lia).
  assert (Hbad : -1 < 0 \/
                 Z.of_nat (List.length [1%float; 2%float; 3%float]) < -1 \/
                 Z.of_nat
                   (List.length [9%float; 8%float; 7%float; 6%float]) < -1)
    by (simpl; lia).
  repeat (split; [assumption |]).
  split.
  - exact (proj1 (proj1 (polygon_copies_points
                           3 [1%float; 2%float; 3%float]
                           [9%float; 8%float; 7%float; 6%float]
                           gc0 dev0) H0 Hx Hy)).
  - split; [exact Hbad |].
    exact (proj2 (proj2 (polygon_copies_points
                           (-1) [1%float; 2%float; 3%float]
                           [9%float; 8%float; 7%float; 6%float]
                           gc0 dev0)) Hbad).
Defined.

Lemma path_of_one_polygon_witness :
  0 <= 2 <= INT_MAX /\
  2 <= Z.of_nat (List.length [1%float; 2%float; 3%float]) /\
  2 <= Z.of_nat (List.length [9%float; 8%float]) /\
  exists vx vy,
    httpgd_path [1%float; 2%float; 3%float] [9%float; 8%float] 1 [2]
                true gc0 dev0
    = Some (put (Path gc0 vx vy 1 [2] true) dev0) /\
    httpgd_polygon 2 [1%float; 2%float; 3%float] [9%float; 8%float] gc0 dev0
    = Some (put (Polygon gc0 2 vx vy) dev0).
Proof.
  assert (Hn : 0 <= 2 <= INT_MAX) by (unfold INT_MAX; lia).
  assert (Hx : 2 <= Z.of_nat (List.length [1%float; 2%float; 3%float]))
    by (simpl; lia).
  assert (Hy : 2 <= Z.of_nat (List.length [9%float; 8%float]))
    by (simpl; lia).
  repeat (split; [assumption |]).
  exact (path_of_one_polygon 2 [1%float; 2%float; 3%float]
                             [9%float; 8%float] true gc0 dev0 Hn Hx Hy).
Defined.

Lemma raster_copies_pixels_witness :
  0 <= 2 /\ 0 <= 3 /\ 2 * 3 <= INT_MAX /\
  2 * 3 <= Z.of_nat (List.length [10; 11; 12; 13; 14; 15; 16]) /\
  httpgd_raster [10; 11; 12; 13; 14; 15; 16] 2 3 0%float 0%float
                20%float 30%float 0%float false gc0 dev0
  = Some (put_raster
            {| ras_gc := gc0; ras_raster := [10; 11; 12; 13; 14; 15];
               ras_w := 2; ras_h := 3; ras_x := 0%float; ras_y := 0%float;
               ras_width := 20%float; ras_height := 30%float;
               ras_rot := 0%float; ras_interpolate := false |} dev0).
Proof.
  assert (Hw : 0 <= 2) by lia.
  assert (Hh : 0 <= 3) by lia.
  assert (Hfit : 2 * 3 <= INT_MAX) by (unfold INT_MAX; lia).
  assert (Hbuf : 2 * 3 <= Z.of_nat
                             (List.length [10; 11; 12; 13; 14; 15; 16]))
    by (simpl; lia).
  repeat (split; [assumption |]).
  exact (proj1 (raster_copies_pixels [10; 11; 12; 13; 14; 15; 16] 2 3
                                     0%float 0%float 20%float 30%float
                                     0%float false gc0 dev0
                                     Hw Hh Hfit Hbuf)).
Defined.

Lemma new_page_uses_start_params_witness :
  exists dd w',
    httpgd_driver_new params0 config1 w_empty = Ret (Some dd) w' /\
    httpgd_new_page gc0 dd dev0 = new_page 720%float 576%float (-1) dev0.
Proof.
  eexists _, _.
  assert (Hnew : httpgd_driver_new params0 config1 w_empty
                 = Ret (Some (set_deviceSpecific 0%nat (driver_fields params0)))
                       {| R_Devices := R_Devices w_empty;
                          heap := [HttpgdObj
                                     (HttpgdDev_new (driver_fields params0)
                                                    config1 params0)] |})
    by reflexivity.
  split; [exact Hnew |].
  exact (new_page_uses_start_params params0 config1 w_empty _ _ gc0 dev0 Hnew).
Defined.

Lemma validate_outcomes_witness :
  (0 < 1 \/ 64 < 0) /\
  validate_httpgddev 0 w0 = Stop "invalid graphical device number" w0 /\
  1 <= 5 <= 64 /\ device_data 5 w0 = None /\
  validate_httpgddev 5 w0 = Stop "invalid device" w0 /\
  1 <= 2 <= 64 /\ device_data 2 w0 = Some 0%nat /\
  validate_httpgddev 2 w0 = Ret 0%nat w0.
Proof.
  assert (Hout : 0 < 1 \/ 64 < 0) by lia.
  assert (H5 : 1 <= 5 <= 64) by lia.
  assert (H2 : 1 <= 2 <= 64) by lia.
  assert (Hnone : device_data 5 w0 = None) by reflexivity.
  assert (Hsome : device_data 2 w0 = Some 0%nat) by reflexivity.
  split; [exact Hout |].
  split; [exact (proj1 (validate_outcomes 0 w0) Hout) |].
  split; [exact H5 |]. split; [exact Hnone |].
  split; [exact (proj1 (proj2 (validate_outcomes 5 w0)) H5 Hnone) |].
  split; [exact H2 |]. split; [exact Hsome |].
  exact (proj2 (proj2 (validate_outcomes 2 w0)) 0%nat H2 Hsome).
Defined.

Lemma live_device_2 : live_httpgd 2 w1 dev0.
Proof. split; [lia |]. exists 0%nat. split; reflexivity. Defined.

Lemma live_device_4 : live_httpgd 4 w1 dev1.
Proof. split; [lia |]. exists 2%nat. split; reflexivity. Defined.

Lemma svg_reads_only_witness :
  live_httpgd 2 w1 dev0 /\
  httpgd_svg_ 2 7 720%float 576%float w1 = Ret "<svg></svg>" w1.
Proof.
  split; [exact live_device_2 |].
  exact (svg_reads_only 2 7 720%float 576%float w1 dev0 live_device_2).
Defined.

Lemma remove_touches_one_device_witness :
  live_httpgd 2 w1 dev0 /\ live_httpgd 4 w1 dev1 /\
  device_data 4 w1 <> device_data 2 w1 /\
  exists w',
    httpgd_remove_ 2 1 w1 = Ret true w' /\
    R_Devices w' = R_Devices w1 /\
    live_httpgd 2 w' (snd (store_remove 1 dev0)) /\
    live_httpgd 4 w' dev1.
Proof.
  assert (Hother : device_data 4 w1 <> device_data 2 w1)
    by (simpl; discriminate).
  split; [exact live_device_2 |]. split; [exact live_device_4 |].
  split; [exact Hother |].
  destruct (remove_touches_one_device 2 1 w1 dev0 live_device_2)
    as (w' & Hrun & Htable & _ & Hsame & Hframe).
  exists w'. split; [exact Hrun |]. split; [exact Htable |].
  split; [exact Hsame |].
  exact (Hframe 4 dev1 live_device_4 Hother).
Defined.

Lemma clear_touches_one_device_witness :
  live_httpgd 4 w1 dev1 /\ live_httpgd 2 w1 dev0 /\
  device_data 2 w1 <> device_data 4 w1 /\
  exists w',
    httpgd_clear_ 4 w1 = Ret true w' /\
    R_Devices w' = R_Devices w1 /\
    live_httpgd 4 w' (snd (store_clear dev1)) /\
    live_httpgd 2 w' dev0.
Proof.
  assert (Hother : device_data 2 w1 <> device_data 4 w1)
    by (simpl; discriminate).
  split; [exact live_device_4 |]. split; [exact live_device_2 |].
  split; [exact Hother |].
  destruct (clear_touches_one_device 4 w1 dev1 live_device_4)
    as (w' & Hrun & Htable & _ & Hsame & Hframe).
  exists w'. split; [exact Hrun |]. split; [exact Htable |].
  split; [exact Hsame |].
  exact (Hframe 2 dev0 live_device_2 Hother).
Defined.

Lemma state_after_update_witness :
  live_httpgd 2 w1 dev0 /\
  (exists w',
      httpgd_remove_ 2 1 w1 = Ret true w' /\
      httpgd_state_ 2 w'
      = Ret [("host", Rstr "127.0.0.1"); ("port", Rint 8080);
             ("token", Rstr "abc123"); ("hsize", Rint 2);
             ("upid", Rint 18)] w') /\
  (exists w',
      httpgd_clear_ 2 w1 = Ret true w' /\
      httpgd_state_ 2 w'
      = Ret [("host", Rstr "127.0.0.1"); ("port", Rint 8080);
             ("token", Rstr "abc123"); ("hsize", Rint 0);
             ("upid", Rint 18)] w').
Proof.
  split; [exact live_device_2 |].
  exact (state_after_update 2 1 w1 dev0 live_device_2).
Defined.

Lemma start_fails_cleanly_witness :
  makehttpgdDevice (engine := host_engine) params0 config0 w0
  = Stop "Failed to start httpgd. Server already running at this address!" w0
  /\
  (w0 = w0 /\
   (R_GE_checkVersionOrDie (HostEngine := host_engine)
                           (R_GE_version (HostEngine := host_engine))
    = Some "Failed to start httpgd. Server already running at this address!"
    \/
    R_CheckDeviceAvailable (HostEngine := host_engine) (R_Devices w0)
    = Some "Failed to start httpgd. Server already running at this address!"
    \/
    (check_server_started (HostEngine := host_engine)
                          (host config0) (port config0) = true /\
     "Failed to start httpgd. Server already running at this address!"
     = "Failed to start httpgd. Server already running at this address!")
    \/
    (calloc_DevDesc (HostEngine := host_engine) = false /\
     "Failed to start httpgd. Server already running at this address!"
     = "Failed to start httpgd."))) /\
  calloc_DevDesc (HostEngine := host_engine_no_memory) = false /\
  makehttpgdDevice (engine := host_engine_no_memory) params0 config0 w0
  = Stop "Failed to start httpgd." w0.
Proof.
  assert (Hrun : makehttpgdDevice (engine := host_engine) params0 config0 w0
                 = Stop "Failed to start httpgd. Server already running at this address!"
                        w0)
    by reflexivity.
  split; [exact Hrun |].
  split.
  - exact (proj1 (proj2 (start_fails_cleanly (engine := host_engine)
                                             params0 config0 w0))
                 _ w0 Hrun).
  - split; [reflexivity |].
    exact (proj2 (proj2 (start_fails_cleanly
                           (engine := host_engine_no_memory)
                           params0 config0 w0))
                 eq_refl eq_refl eq_refl eq_refl).
Defined.

Lemma start_on_free_port :
  makehttpgdDevice (engine := host_engine) params0 config1 w_empty
  = Ret tt w_started.
Proof. reflexivity. Defined.

Lemma start_keeps_existing_devices_witness :
  makehttpgdDevice (engine := host_engine) params0 config1 w_empty
  = Ret tt w_started /\
  List.length (heap w_started) = 1%nat /\
  nth_error (heap w_started) 0 = Some (HttpgdObj dev_started).
Proof.
  split; [exact start_on_free_port |].
  destruct (start_keeps_existing_devices (engine := host_engine)
                                         params0 config1 w_empty w_started tt
                                         start_on_free_port)
    as (Hlen & Hnew & _).
  split; [exact Hlen | exact Hnew].
Defined.

Lemma state_after_start_witness :
  makehttpgdDevice (engine := host_engine) params0 config1 w_empty
  = Ret tt w_started /\
  1 <= 2 <= 64 /\
  device_data 2 w_started = Some (List.length (heap w_empty)) /\
  httpgd_state_ 2 w_started
  = Ret [("host", Rstr "127.0.0.1"); ("port", Rint 8288);
         ("token", Rstr "abc123"); ("hsize", Rint 0); ("upid", Rint 0)]
        w_started.
Proof.
  assert (Hrange : 1 <= 2 <= 64) by lia.
  assert (Hdata : device_data 2 w_started = Some (List.length (heap w_empty)))
    by reflexivity.
  split; [exact start_on_free_port |].
  split; [exact Hrange |]. split; [exact Hdata |].
  exact (state_after_start (engine := host_engine)
                           params0 config1 w_empty w_started tt 2
                           start_on_free_port Hrange Hdata).
Defined.

Lemma httpgd_fails_cleanly_witness :
  R_GE_str2col (HostEngine := host_engine) "mauve" = inl "invalid color name"
  /\
  httpgd_ (engine := host_engine) "127.0.0.1" 8080 "mauve" 720%float
          576%float 12%float [] true false "abc123" w0
  = Stop "invalid color name" w0 /\
  httpgd_ (engine := host_engine) "127.0.0.1" 8080 "white" 720%float
          576%float 12%float [] true false "abc123" w0
  = Stop "Failed to start httpgd. Server already running at this address!" w0
  /\ w0 = w0.
Proof.
  assert (Hcol : R_GE_str2col (HostEngine := host_engine) "mauve"
                 = inl "invalid color name") by reflexivity.
  assert (Hrun : httpgd_ (engine := host_engine) "127.0.0.1" 8080 "white"
                         720%float 576%float 12%float [] true false
                         "abc123" w0
                 = Stop "Failed to start httpgd. Server already running at this address!"
                        w0) by reflexivity.
  split; [exact Hcol |].
  split.
  - exact (proj1 (httpgd_fails_cleanly (engine := host_engine)
                                       "127.0.0.1" 8080 "mauve" 720%float
                                       576%float 12%float [] true false
                                       "abc123" w0)
                 _ Hcol).
  - split; [exact Hrun |].
    exact (proj1 (proj2 (httpgd_fails_cleanly (engine := host_engine)
                                              "127.0.0.1" 8080 "white"
                                              720%float 576%float 12%float
                                              [] true false "abc123" w0))
                 _ w0 Hrun).
Defined.

Lemma httpgd_builds_from_arguments_witness :
  httpgd_ (engine := host_engine) "127.0.0.1" 8288 "white" 720%float
          576%float 12%float [] true false "abc123" w_empty
  = Ret true w_started /\
  R_GE_str2col (HostEngine := host_engine) "white" = inr 4294967295 /\
  ifstream (HostEngine := host_engine)
           (system_file (HostEngine := host_engine)
                        "www" "index.html" "httpgd")
  = Some "<html></html>" /\
  nth_error (heap w_started) (List.length (heap w_empty))
  = Some (HttpgdObj dev_started).
Proof.
  assert (Hrun : httpgd_ (engine := host_engine) "127.0.0.1" 8288 "white"
                         720%float 576%float 12%float [] true false
                         "abc123" w_empty
                 = Ret true w_started) by reflexivity.
  split; [exact Hrun |]. split; [reflexivity |]. split; [reflexivity |].
  exact (httpgd_builds_from_arguments (engine := host_engine)
                                      "127.0.0.1" 8288 "white" 720%float
                                      576%float 12%float [] true false
                                      "abc123" w_empty w_started true
                                      4294967295 "<html></html>"
                                      Hrun eq_refl eq_refl).
Defined.
